(** * Complaint backend: CSRF token store, field validation, sanitizer

    Shallow embedding of the two sources of the repository:
    - [src/server.js]: the CSRF-gated server (token issuance on
      [GET /get-csrf-token], the [validateCsrfToken] middleware and the
      [POST /send-complaint] handler with its inline checks);
    - [src/unnamed/part_000]: the earlier server with the [validators]
      object, [sanitize] and its own [POST /send-complaint] handler.

    JavaScript values that reach the handlers come from a JSON body or from
    cookies.  Strings are [String.string] (code units below 256); numbers are
    modelled by their integral values; a JSON array or object in a field is
    outside the model.  [Date.now()] and [new Date()] readings are explicit
    arguments, one per reading in the source. *)

From stdpp Require Import base gmap strings list.
From Stdlib Require Import ZArith Ascii String.

Local Open Scope string_scope.
Open Scope Z_scope.

(* ------------------------------------------------------------------ *)
(** ** JavaScript values and the operations the handlers apply to them *)

Inductive jsval :=
| JUndef
| JNull
| JBool (b : bool)
| JNum (z : Z)
| JStr (s : string).

(** [!v] is [negb (truthy v)]. *)
Definition truthy (v : jsval) : bool :=
  match v with
  | JUndef | JNull => false
  | JBool b => b
  | JNum z => negb (Z.eqb z 0)
  | JStr s => negb (String.eqb s "")
  end.

(** [v.length]: a number for strings, [undefined] (here [None]) for the
    other scalars. *)
Definition js_length (v : jsval) : option Z :=
  match v with
  | JStr s => Some (Z.of_nat (String.length s))
  | _ => None
  end.

(** [v.length < n] and [v.length > n]: a comparison with [undefined] is
    false. *)
Definition length_lt (v : jsval) (n : Z) : bool :=
  match js_length v with Some l => l <? n | None => false end.
Definition length_gt (v : jsval) (n : Z) : bool :=
  match js_length v with Some l => n <? l | None => false end.

(** Decimal digits, most significant first: [Number.prototype.toString]
    on a non-negative integer below 10^21.  The fuel 21 covers that range. *)
Definition digit_char (d : Z) : ascii := ascii_of_nat (48 + Z.to_nat d).

Fixpoint dec_digits (fuel : nat) (n : Z) (acc : list Z) : list Z :=
  match fuel with
  | O => acc
  | S f => if n <? 10 then n :: acc else dec_digits f (n / 10) (n mod 10 :: acc)
  end.

Fixpoint string_of_digits (ds : list Z) : string :=
  match ds with
  | [] => ""
  | d :: ds' => String (digit_char d) (string_of_digits ds')
  end.

Definition nat_to_string (n : Z) : string := string_of_digits (dec_digits 21 n []).

Definition number_to_string (z : Z) : string :=
  if z <? 0 then String "-" (nat_to_string (- z)) else nat_to_string z.

(** [String(v)], as used by a template literal and by [RegExp.test]. *)
Definition js_to_string (v : jsval) : string :=
  match v with
  | JUndef => "undefined"
  | JNull => "null"
  | JBool true => "true"
  | JBool false => "false"
  | JNum z => number_to_string z
  | JStr s => s
  end.

(** [s.slice(-k)]: start at [max(len - k, 0)]. *)
Definition slice_last (k : nat) (s : string) : string :=
  substring (String.length s - k) k s.

(** JavaScript white space and line terminators below code unit 256
    (what [\s] matches and [trim] removes there). *)
Definition is_ws (c : ascii) : bool :=
  let n := nat_of_ascii c in
  ((9 <=? n) && (n <=? 13))%nat || (n =? 32)%nat || (n =? 160)%nat.

Fixpoint ltrim (s : string) : string :=
  match s with
  | EmptyString => EmptyString
  | String c r => if is_ws c then ltrim r else s
  end.

Fixpoint rtrim (s : string) : string :=
  match s with
  | EmptyString => EmptyString
  | String c r =>
      let r' := rtrim r in
      if String.eqb r' "" && is_ws c then "" else String c r'
  end.

(** [String.prototype.trim]. *)
Definition trim (s : string) : string := rtrim (ltrim s).

Fixpoint forall_chars (p : ascii -> bool) (s : string) : bool :=
  match s with
  | EmptyString => true
  | String c r => p c && forall_chars p r
  end.

Fixpoint exists_char (p : ascii -> bool) (s : string) : bool :=
  match s with
  | EmptyString => false
  | String c r => p c || exists_char p r
  end.

Definition in_range (lo hi : ascii) (c : ascii) : bool :=
  ((nat_of_ascii lo <=? nat_of_ascii c) && (nat_of_ascii c <=? nat_of_ascii hi))%nat.

Definition is_digit (c : ascii) : bool := in_range "0" "9" c.
Definition is_alpha (c : ascii) : bool := in_range "a" "z" c || in_range "A" "Z" c.

(** The character class [[a-zA-Z0-9_]]. *)
Definition is_word (c : ascii) : bool := is_alpha c || is_digit c || Ascii.eqb c "_".
(** The character class [[a-zA-Z0-9-_]]. *)
Definition is_word_dash (c : ascii) : bool := is_word c || Ascii.eqb c "-".

(** [/^C+$/.test(s)] for a character class [C]. *)
Definition class_plus (p : ascii -> bool) (s : string) : bool :=
  negb (String.eqb s "") && forall_chars p s.

(* ------------------------------------------------------------------ *)
(** ** [sanitize] (part_000) *)

(** [s.replace(/<\/?[^>]+(>|$)/g, "")].  At a ['<'] followed by a character
    other than ['>'] the pattern matches through the next ['>'] or to the
    end of the input (the optional ['/'] is itself a [[^>]] character, so it
    does not change where a match ends); at any other position it does not
    match and the character is kept. *)
Fixpoint strip_tags (s : string) : string :=
  match s with
  | EmptyString => EmptyString
  | String c r =>
      if Ascii.eqb c "<" then
        match r with
        | EmptyString => String c EmptyString
        | String d r' => if Ascii.eqb d ">" then String c (strip_tags r) else skip_tag r'
        end
      else String c (strip_tags r)
  end
(** Inside a match: drop characters through the next ['>']. *)
with skip_tag (s : string) : string :=
  match s with
  | EmptyString => EmptyString
  | String c r => if Ascii.eqb c ">" then strip_tags r else skip_tag r
  end.

Definition sanitize (input : jsval) : jsval :=
  match input with
  | JStr s => JStr (trim (strip_tags s))
  | v => v
  end.

(* ------------------------------------------------------------------ *)
(** ** Regular expressions of the validators *)

Definition is_char (c : ascii) (x : ascii) : bool := Ascii.eqb x c.

(** Split at the first occurrence of [c]. *)
Fixpoint split_first (c : ascii) (s : string) : option (string * string) :=
  match s with
  | EmptyString => None
  | String x r =>
      if Ascii.eqb x c then Some (EmptyString, r)
      else match split_first c r with
           | Some (a, d) => Some (String x a, d)
           | None => None
           end
  end.

(** A [d] of the form [B.C] with [B] and [C] non-empty: a ['.'] strictly
    inside [d]. *)
Definition dot_inside (d : string) : bool :=
  (3 <=? String.length d)%nat
  && exists_char (is_char ".") (substring 1 (String.length d - 2) d).

(** part_000: [/^[^\s@]+@[^\s@]+\.[^\s@]+$/].  No part contains ['@'], so
    the ['@'] is the first one. *)
Definition not_ws_at (c : ascii) : bool := negb (is_ws c) && negb (Ascii.eqb c "@").

Definition email_re_000 (s : string) : bool :=
  match split_first "@" s with
  | Some (a, d) => class_plus not_ws_at a && forall_chars not_ws_at d && dot_inside d
  | None => false
  end.

(** server.js: [/^\S+@\S+\.\S+$/].  [\S] also matches ['@'] and ['.'];
    taking the first ['@'] after the first character leaves the most room
    for the ['.'] after it. *)
Definition email_re_srv (s : string) : bool :=
  forall_chars (fun c => negb (is_ws c)) s
  && match s with
     | EmptyString => false
     | String _ r =>
         match split_first "@" r with
         | Some (_, d) => dot_inside d
         | None => false
         end
     end.

(** [/^\+?[0-9]{10,15}$/]: a leading ['+'] can only be matched by [\+?]. *)
Definition digits_10_15 (s : string) : bool :=
  forall_chars is_digit s
  && (10 <=? String.length s)%nat && (String.length s <=? 15)%nat.

Definition phone_re (s : string) : bool :=
  match s with
  | String c r => if Ascii.eqb c "+" then digits_10_15 r else digits_10_15 s
  | EmptyString => false
  end.

Definition validIssueTypes : list string :=
  ["Deposit/Penarikan Bermasalah"; "Kerusakan Game"; "Masalah Akses Akun";
   "Masalah Bonus/Promosi"; "Kesalahan Proses Pembayaran"; "Logout Tiba-tiba";
   "Masalah Pembayaran Jackpot"; "Lainnya"].

(* ------------------------------------------------------------------ *)
(** ** Requests, replies and the outgoing mail *)

Record complaint := {
  username : jsval; email : jsval; gameId : jsval; platform : jsval;
  issueType : jsval; description : jsval; dateOfIssue : jsval; phoneNumber : jsval
}.

(** The JSON replies of the two servers. *)
Inductive reply :=
| Ok_token                                 (* 200 {success:true} *)
| Ok_ref (referenceNumber : string)        (* 200 {success:true, referenceNumber} *)
| Bad (errors : list (string * string))    (* 400 {success:false, message, errors} *)
| Forbidden (message : string)             (* 403 {success:false, message} *)
| TooMany                                  (* the rate limiter's rejection *)
| ServerError (message : string).          (* 500 {success:false, message} *)

Definition status (r : reply) : Z :=
  match r with
  | Ok_token | Ok_ref _ => 200
  | Bad _ => 400
  | Forbidden _ => 403
  | TooMany => 429
  | ServerError _ => 500
  end.

Definition success (r : reply) : bool :=
  match r with Ok_token | Ok_ref _ => true | _ => false end.

(** What [transport.sendMail] does with the message: calls back without an
    error, calls back with one, or throws before that (caught by the
    handler's [try]). *)
Inductive send_outcome := SendOk | SendError | SendThrows.

Record mail := { subject : string; text : string }.

Definition nl : string := String (ascii_of_nat 10) EmptyString.

(** The [mailOptions] template shared by both handlers, given the text of
    each interpolation. *)
Definition compose_mail (ref user mail_ phone plat issue game date desc : string) : mail :=
  {| subject := "PENASLOT Complaint: " ++ issue ++ " - " ++ user ++ " - " ++ ref;
     text := nl ++ "PENASLOT Customer Complaint" ++ nl ++ nl
             ++ "Nomor Referensi: " ++ ref ++ nl
             ++ "Username: " ++ user ++ nl
             ++ "Email: " ++ mail_ ++ nl
             ++ "Nomor Whatsapp: " ++ phone ++ nl
             ++ "Platform: " ++ plat ++ nl
             ++ "Jenis Kendala: " ++ issue ++ nl
             ++ "Game ID: " ++ game ++ nl
             ++ "Tanggal: " ++ date ++ nl ++ nl
             ++ "Description:" ++ nl
             ++ desc ++ nl ++ "      " |}.

(** [v || "N/A"]. *)
Definition or_na (v : jsval) : jsval := if truthy v then v else JStr "N/A".

(** [`PENA-${Date.now().toString().slice(-8)}`]. *)
Definition refNumber (now : Z) : string :=
  "PENA-" ++ slice_last 8 (number_to_string now).

Section Handlers.

(** [new Date(v).getTime()], [None] for an Invalid Date (NaN).  Date parsing
    is left abstract. *)
Variable date_value : jsval -> option Z.

(* ------------------------------------------------------------------ *)
(** ** part_000: [validators] and its [POST /send-complaint] *)

Definition v_username (value : jsval) : bool :=
  match value with
  | JStr s => (3 <=? String.length (trim s))%nat && (String.length (trim s) <=? 50)%nat
              && class_plus is_word s
  | _ => false
  end.

Definition v_email (value : jsval) : bool :=
  match value with
  | JStr s => email_re_000 s && (String.length s <=? 100)%nat
  | _ => false
  end.

Definition v_gameId (value : jsval) : bool :=
  if negb (truthy value) then true
  else match value with
       | JStr s => (String.length (trim s) <=? 50)%nat && class_plus is_word_dash s
       | _ => false
       end.

Definition v_platform (value : jsval) : bool :=
  match value with JStr s => String.eqb s "PENASLOT" | _ => false end.

Definition v_issueType (value : jsval) : bool :=
  match value with
  | JStr s => existsb (String.eqb s) validIssueTypes
  | _ => false
  end.

Definition v_description (value : jsval) : bool :=
  match value with
  | JStr s => (0 <? String.length (trim s))%nat && (String.length (trim s) <=? 2000)%nat
  | _ => false
  end.

(** [today] is the [new Date()] reading. *)
Definition v_dateOfIssue (today : Z) (value : jsval) : bool :=
  match date_value value with
  | Some t => t <=? today
  | None => false
  end.

Definition v_phoneNumber (value : jsval) : bool :=
  match value with JStr s => phone_re s | _ => false end.

(** One [if (!validators.f(f)) validationErrors.f = msg] per line, in source
    order (the key order of the JavaScript object). *)
Definition check (ok : bool) (key msg : string) : list (string * string) :=
  if ok then [] else [(key, msg)].

Definition validationErrors_000 (today : Z) (b : complaint) : list (string * string) :=
  check (v_username (username b)) "username" "Username tidak valid"
  ++ check (v_email (email b)) "email" "Email tidak valid"
  ++ check (v_platform (platform b)) "platform" "Platform tidak valid"
  ++ check (v_issueType (issueType b)) "issueType" "Jenis issue tidak valid"
  ++ check (v_description (description b)) "description" "Deskripsi tidak valid"
  ++ check (v_dateOfIssue today (dateOfIssue b)) "dateOfIssue" "Tanggal masalah tidak valid"
  ++ check (v_phoneNumber (phoneNumber b)) "phoneNumber" "Nomor telepon tidak valid"
  ++ check (v_gameId (gameId b)) "gameId" "ID game tidak valid".

Definition mail_000 (ref : string) (b : complaint) : mail :=
  compose_mail ref
    (js_to_string (sanitize (username b))) (js_to_string (sanitize (email b)))
    (js_to_string (sanitize (phoneNumber b))) (js_to_string (sanitize (platform b)))
    (js_to_string (sanitize (issueType b))) (js_to_string (or_na (sanitize (gameId b))))
    (js_to_string (sanitize (dateOfIssue b))) (js_to_string (sanitize (description b))).

(** [today]: the [new Date()] of the date check; [now]: the [Date.now()] of
    the reference number.  Returns the reply and the mail handed to
    [sendMail], if any. *)
Definition send_complaint_000 (today now : Z) (out : send_outcome) (b : complaint)
  : reply * option mail :=
  let errs := validationErrors_000 today b in
  if negb (Nat.eqb (List.length errs) 0) then (Bad errs, None)
  else
    let ref := refNumber now in
    let m := mail_000 ref b in
    match out with
    | SendOk => (Ok_ref ref, Some m)
    | SendError => (ServerError "Gagal mengirim email", Some m)
    | SendThrows => (ServerError "Terjadi kesalahan pada server", None)
    end.

(* ------------------------------------------------------------------ *)
(** ** server.js: the inline checks of [POST /send-complaint] *)

(** [t] is the [new Date()] reading of the date check. *)
Definition validationErrors_srv (t : Z) (b : complaint) : list (string * string) :=
  let u := username b in let e := email b in let d := description b in
  let dt := dateOfIssue b in let p := phoneNumber b in
  check (negb (negb (truthy u) || length_lt u 3 || length_gt u 50))
        "username" "Username tidak valid"
  ++ check (negb (negb (truthy e) || negb (email_re_srv (js_to_string e))))
        "email" "Email tidak valid"
  ++ check (truthy (issueType b)) "issueType" "Jenis keluhan tidak valid"
  ++ check (negb (negb (truthy d) || length_gt d 2000))
        "description" "Deskripsi tidak valid"
  ++ check (negb (negb (truthy dt)
                  || match date_value dt with Some x => t <? x | None => false end))
        "dateOfIssue" "Tanggal tidak valid"
  ++ check (negb (negb (truthy p) || negb (phone_re (js_to_string p))))
        "phoneNumber" "Nomor telepon tidak valid".

(** The raw fields, each through [`${...}`] only. *)
Definition mail_srv (ref : string) (b : complaint) : mail :=
  compose_mail ref
    (js_to_string (username b)) (js_to_string (email b))
    (js_to_string (phoneNumber b)) (js_to_string (platform b))
    (js_to_string (issueType b)) (js_to_string (or_na (gameId b)))
    (js_to_string (dateOfIssue b)) (js_to_string (description b)).

(* ------------------------------------------------------------------ *)
(** ** server.js: the token store *)

(** A value of [const tokenStore = new Map()], which is keyed by session
    identifier; the store is a [gmap string token_data]. *)
Record token_data := { token : string; expires : Z }.

(** The cookies the handlers read: [req.cookies.sessionId] and
    [req.cookies.csrfToken]. *)
Record cookies := { c_sessionId : option string; c_csrfToken : option string }.

(** A cookie value used as a condition. *)
Definition cookie_truthy (c : option string) : bool :=
  match c with Some s => negb (String.eqb s "") | None => false end.

(** [generateSecureToken]: [tok] stands for the 32 random bytes in hex, [now]
    for its [Date.now()]. *)
Definition generateSecureToken (tok : string) (now : Z) : token_data :=
  {| token := tok; expires := now + 30 * 60 * 1000 |}.

(** [GET /get-csrf-token].  [fresh_sid] and [fresh_tok] stand for the random
    values the handler may draw; [clk k] is the [Date.now()] read when the
    sweep loop visits key [k] (each visit reads the clock anew, and deleting
    the visited entry does not disturb the iteration over the others).
    Returns the new store, the reply and the two cookies set. *)
Definition get_csrf_token (ck_sid : option string) (fresh_sid fresh_tok : string)
    (now : Z) (clk : string -> Z) (st : gmap string token_data)
  : gmap string token_data * reply * (string * string) :=
  let sessionId := if cookie_truthy ck_sid then default "" ck_sid else fresh_sid in
  let tokenData := generateSecureToken fresh_tok now in
  let st1 := <[sessionId := tokenData]> st in
  let st2 := filter (fun kd : string * token_data => ~ (expires kd.2 < clk kd.1)) st1 in
  (st2, Ok_token, (sessionId, token tokenData)).

Definition msg_missing : string := "Gagal memverifikasi permintaan. Coba lagi.".
Definition msg_invalid : string := "Token CSRF tidak valid atau kedaluwarsa.".

(** [validateCsrfToken]: [Some r] when it answers [r], [None] when it calls
    [next()].  [now] is its [Date.now()]. *)
Definition validateCsrfToken (ck : cookies) (now : Z) (st : gmap string token_data)
  : option reply :=
  match c_sessionId ck, c_csrfToken ck with
  | Some sid, Some tok =>
      if String.eqb sid "" || String.eqb tok "" then Some (Forbidden msg_missing)
      else match st !! sid with
           | None => Some (Forbidden msg_invalid)
           | Some d =>
               if negb (String.eqb (token d) tok) || (expires d <? now)
               then Some (Forbidden msg_invalid) else None
           end
  | _, _ => Some (Forbidden msg_missing)
  end.

(** The deletion in the [sendMail] callback. *)
Definition consume (ck : cookies) (st : gmap string token_data) : gmap string token_data :=
  match c_sessionId ck with
  | Some sid => if String.eqb sid "" then st else delete sid st
  | None => st
  end.

(** [app.post("/send-complaint", limiter, validateCsrfToken, handler)].
    [limited] is the rate limiter's verdict on this request; [t_csrf],
    [t_check] and [t_ref] are the clock readings of the middleware, of the
    date check and of the reference number. *)
Definition send_complaint (limited : bool) (ck : cookies) (b : complaint)
    (t_csrf t_check t_ref : Z) (out : send_outcome) (st : gmap string token_data)
  : reply * gmap string token_data * option mail :=
  if limited then (TooMany, st, None) else
  match validateCsrfToken ck t_csrf st with
  | Some r => (r, st, None)
  | None =>
      let errs := validationErrors_srv t_check b in
      if negb (Nat.eqb (List.length errs) 0) then (Bad errs, st, None)
      else
        let ref := refNumber t_ref in
        let m := mail_srv ref b in
        match out with
        | SendOk => (Ok_ref ref, consume ck st, Some m)
        | SendError => (ServerError "Gagal mengirim email", st, Some m)
        | SendThrows => (ServerError "Terjadi kesalahan pada server", st, None)
        end
  end.

(** One request to the server of server.js. *)
Inductive request :=
| GetToken (ck_sid : option string) (fresh_sid fresh_tok : string) (now : Z) (clk : string -> Z)
| PostComplaint (limited : bool) (ck : cookies) (b : complaint)
    (t_csrf t_check t_ref : Z) (out : send_outcome).

Definition serve (rq : request) (st : gmap string token_data) : reply * gmap string token_data :=
  match rq with
  | GetToken c fs ft now clk => let '(st', r, _) := get_csrf_token c fs ft now clk st in (r, st')
  | PostComplaint l ck b t1 t2 t3 out =>
      let '(r, st', _) := send_complaint l ck b t1 t2 t3 out st in (r, st')
  end.

End Handlers.

(* ------------------------------------------------------------------ *)
(** ** Predicates used in the statements *)

(** No position of [s] where [/<\/?[^>]+(>|$)/] matches: every ['<'] is the
    last character or is followed by ['>']. *)
Fixpoint tag_free (s : string) : bool :=
  match s with
  | EmptyString => true
  | String c r =>
      (if Ascii.eqb c "<" then
         match r with EmptyString => true | String d _ => Ascii.eqb d ">" end
       else true) && tag_free r
  end.

(** The fields of a submission, with their keys in [validationErrors]. *)
Inductive field :=
| F_username | F_email | F_gameId | F_platform
| F_issueType | F_description | F_dateOfIssue | F_phoneNumber.

#[global] Instance field_eq_dec : EqDecision field.
Proof. solve_decision. Defined.

Definition field_key (f : field) : string :=
  match f with
  | F_username => "username" | F_email => "email" | F_gameId => "gameId"
  | F_platform => "platform" | F_issueType => "issueType"
  | F_description => "description" | F_dateOfIssue => "dateOfIssue"
  | F_phoneNumber => "phoneNumber"
  end.

Definition get_field (f : field) (b : complaint) : jsval :=
  match f with
  | F_username => username b | F_email => email b | F_gameId => gameId b
  | F_platform => platform b | F_issueType => issueType b
  | F_description => description b | F_dateOfIssue => dateOfIssue b
  | F_phoneNumber => phoneNumber b
  end.

(** part_000: the validator of each field. *)
Definition valid_000 (date_value : jsval -> option Z) (today : Z) (f : field) (v : jsval) : bool :=
  match f with
  | F_username => v_username v | F_email => v_email v | F_gameId => v_gameId v
  | F_platform => v_platform v | F_issueType => v_issueType v
  | F_description => v_description v | F_dateOfIssue => v_dateOfIssue date_value today v
  | F_phoneNumber => v_phoneNumber v
  end.

(** The order of the checks in part_000. *)
Definition order_000 : list field :=
  [F_username; F_email; F_platform; F_issueType; F_description; F_dateOfIssue;
   F_phoneNumber; F_gameId].

(** server.js: whether a field passes its inline check; [platform] and
    [gameId] have none there. *)
Definition valid_srv (date_value : jsval -> option Z) (t : Z) (f : field) (v : jsval) : bool :=
  match f with
  | F_username => negb (negb (truthy v) || length_lt v 3 || length_gt v 50)
  | F_email => negb (negb (truthy v) || negb (email_re_srv (js_to_string v)))
  | F_issueType => truthy v
  | F_description => negb (negb (truthy v) || length_gt v 2000)
  | F_dateOfIssue =>
      negb (negb (truthy v) || match date_value v with Some x => t <? x | None => false end)
  | F_phoneNumber => negb (negb (truthy v) || negb (phone_re (js_to_string v)))
  | F_platform | F_gameId => true
  end.

(** The order of the checks in server.js. *)
Definition order_srv : list field :=
  [F_username; F_email; F_issueType; F_description; F_dateOfIssue; F_phoneNumber].

(** A concrete [new Date(v).getTime()] for the sample submissions below. *)
Definition sample_date (v : jsval) : option Z :=
  match v with
  | JStr s => if String.eqb s "2025-01-01" then Some 1735689600000 else None
  | _ => None
  end.

(** A submission that meets every constraint of both servers. *)
Definition sample_body : complaint :=
  {| username := JStr "player_01"; email := JStr "player@example.com";
     gameId := JStr "G-1001"; platform := JStr "PENASLOT";
     issueType := JStr "Kerusakan Game"; description := JStr "Game froze during a spin.";
     dateOfIssue := JStr "2025-01-01"; phoneNumber := JStr "+6281234567890" |}.

Definition with_platform (v : jsval) (b : complaint) : complaint :=
  {| username := username b; email := email b; gameId := gameId b; platform := v;
     issueType := issueType b; description := description b;
     dateOfIssue := dateOfIssue b; phoneNumber := phoneNumber b |}.

Definition with_username (v : jsval) (b : complaint) : complaint :=
  {| username := v; email := email b; gameId := gameId b; platform := platform b;
     issueType := issueType b; description := description b;
     dateOfIssue := dateOfIssue b; phoneNumber := phoneNumber b |}.

Definition with_gameId (v : jsval) (b : complaint) : complaint :=
  {| username := username b; email := email b; gameId := v; platform := platform b;
     issueType := issueType b; description := description b;
     dateOfIssue := dateOfIssue b; phoneNumber := phoneNumber b |}.

Definition with_description (v : jsval) (b : complaint) : complaint :=
  {| username := username b; email := email b; gameId := gameId b; platform := platform b;
     issueType := issueType b; description := v;
     dateOfIssue := dateOfIssue b; phoneNumber := phoneNumber b |}.

(** A description of 2000 characters between two spaces: trimmed length
    2000, raw length 2002. *)
Fixpoint repeat_char (c : ascii) (n : nat) : string :=
  match n with O => EmptyString | S n' => String c (repeat_char c n') end.

Definition padded_description : string := " " ++ repeat_char "x"%char 2000 ++ " ".

(** A clock reading of October 2025. *)
Definition sample_now : Z := 1760000000000.

(** The number a string of decimal digits denotes. *)
Definition digit_value (c : ascii) : Z := Z.of_nat (nat_of_ascii c) - 48.

Fixpoint decimal_value_acc (acc : Z) (s : string) : Z :=
  match s with
  | EmptyString => acc
  | String c r => decimal_value_acc (10 * acc + digit_value c) r
  end.

Definition decimal_value (s : string) : Z := decimal_value_acc 0 s.

(** The number a list of digits denotes. *)
Definition digits_value (l : list Z) : Z := fold_left (fun a d => 10 * a + d) l 0.

(** A submission whose username and description carry markup and
    surrounding white space, and that still passes the server.js checks. *)
Definition tagged_body : complaint :=
  {| username := JStr "<b>bob</b>"; email := JStr "player@example.com";
     gameId := JStr "G-1001"; platform := JStr "PENASLOT";
     issueType := JStr "Kerusakan Game"; description := JStr "  <i>help</i> me  ";
     dateOfIssue := JStr "2025-01-01"; phoneNumber := JStr "+6281234567890" |}.

Definition sample_cookies : cookies :=
  {| c_sessionId := Some "s1"; c_csrfToken := Some "t1" |}.

(** A store with a live record for ["s1"] and an expired one. *)
Definition sample_store : gmap string token_data :=
  {[ "s1" := {| token := "t1"; expires := sample_now + 1000 |};
     "s0" := {| token := "t0"; expires := 0 |} ]}.

(* ------------------------------------------------------------------ *)
(** ** server.js: the CORS origin check *)

(** [s.split(",")]. *)
Fixpoint split_comma (s : string) : list string :=
  match s with
  | EmptyString => [""]
  | String c r =>
      if Ascii.eqb c "," then "" :: split_comma r
      else match split_comma r with
           | x :: xs => String c x :: xs
           | [] => [String c ""]
           end
  end.

(** [allowedOrigins]: [env] is [process.env.ALLOWED_ORIGINS], [None] when
    unset. *)
Definition allowedOrigins (env : option string) : list string :=
  match env with
  | Some s => if String.eqb s "" then ["https://laporanpenaslot.info"] else split_comma s
  | None => ["https://laporanpenaslot.info"]
  end.

(** The [origin] function given to [cors]: [true] for [callback(null, true)],
    [false] for [callback(new Error("Not allowed by CORS"))].  [origin] is
    the request's Origin header, [None] when absent. *)
Definition origin_allowed (env origin : option string) : bool :=
  match origin with
  | None => true
  | Some o => String.eqb o "" || existsb (String.eqb o) (allowedOrigins env)
  end.

(** Comma-separated list, the form [ALLOWED_ORIGINS] is written in. *)
Fixpoint join_comma (l : list string) : string :=
  match l with
  | [] => ""
  | [x] => x
  | x :: xs => x ++ "," ++ join_comma xs
  end.

(* ------------------------------------------------------------------ *)
(** ** server.js: requests served one after another *)

(** The store after serving [rqs] in order, starting from [st]. *)
Fixpoint run (date_value : jsval -> option Z) (rqs : list request)
    (st : gmap string token_data) : gmap string token_data :=
  match rqs with
  | [] => st
  | rq :: rest => run date_value rest (serve date_value rq st).2
  end.

Definition is_issue (rq : request) : bool :=
  match rq with GetToken _ _ _ _ _ => true | PostComplaint _ _ _ _ _ _ _ => false end.

(** A submission with every field absent. *)
Definition empty_body : complaint :=
  {| username := JUndef; email := JUndef; gameId := JUndef; platform := JUndef;
     issueType := JUndef; description := JUndef; dateOfIssue := JUndef;
     phoneNumber := JUndef |}.

(** A submission with non-string values where server.js has no type check,
    and a date string that does not parse. *)
Definition loose_body : complaint :=
  {| username := JNum 12345; email := JStr "player@example.com"; gameId := JUndef;
     platform := JUndef; issueType := JBool true; description := JNum 1;
     dateOfIssue := JStr "kemarin"; phoneNumber := JNum 6281234567890 |}.

(** [new Date(v).getTime()] for the sample submissions, with
    [new Date(null)], the epoch, added. *)
Definition null_date (v : jsval) : option Z :=
  match v with JNull => Some 0 | _ => sample_date v end.

(** [sample_body] with a [null] date. *)
Definition null_date_body : complaint :=
  {| username := username sample_body; email := email sample_body;
     gameId := gameId sample_body; platform := platform sample_body;
     issueType := issueType sample_body; description := description sample_body;
     dateOfIssue := JNull; phoneNumber := phoneNumber sample_body |}.

(** A character that [sanitize] neither strips nor trims: no white space
    and no ['<']. *)
Definition plain_char (c : ascii) : bool := negb (is_ws c) && negb (Ascii.eqb c "<").

(* ------------------------------------------------------------------ *)
(** ** Sanitizer *)

Lemma ascii_eqb_spec (a b : ascii) : Ascii.eqb a b = true <-> a = b.
Proof. apply Ascii.eqb_eq. Qed.

Lemma strip_tags_tag_free_aux (s : string) :
  tag_free (strip_tags s) = true /\ tag_free (skip_tag s) = true
  /\ match s with EmptyString => True | String _ r => tag_free (skip_tag r) = true end.
Proof.
  induction s as [|c r IH]; [done|].
  destruct IH as (IHb & IHa & IHt).
  split; [|split].
  - simpl. destruct (Ascii.eqb c "<") eqn:Hc.
    + destruct r as [|d r'].
      * simpl. by rewrite Hc.
      * destruct (Ascii.eqb d ">") eqn:Hd; [|exact IHt].
        apply ascii_eqb_spec in Hc, Hd. subst c d.
        simpl in *. exact IHb.
    + simpl. rewrite Hc. exact IHb.
  - simpl. by destruct (Ascii.eqb c ">").
  - exact IHa.
Qed.

Lemma strip_tags_tag_free (s : string) : tag_free (strip_tags s) = true.
Proof. apply strip_tags_tag_free_aux. Qed.

Lemma strip_tags_id (s : string) : tag_free s = true -> strip_tags s = s.
Proof.
  induction s as [|c r IH]; [done|].
  simpl. destruct (Ascii.eqb c "<") eqn:Hc; intros H; apply andb_prop in H as [H1 H2].
  - destruct r as [|d r']; [done|].
    rewrite H1. by rewrite IH.
  - by rewrite IH.
Qed.

Lemma ltrim_tag_free (s : string) : tag_free s = true -> tag_free (ltrim s) = true.
Proof.
  induction s as [|c r IH]; [done|].
  intros H. simpl. destruct (is_ws c); [|exact H].
  apply IH. simpl in H. by apply andb_prop in H as [_ H].
Qed.

Lemma is_ws_gt : is_ws ">" = false.
Proof. reflexivity. Qed.

Lemma rtrim_tag_free (s : string) : tag_free s = true -> tag_free (rtrim s) = true.
Proof.
  induction s as [|c r IH]; [done|].
  intros H. simpl in H. apply andb_prop in H as [H1 H2].
  simpl. destruct (String.eqb (rtrim r) "" && is_ws c); [done|].
  simpl. rewrite (IH H2), andb_true_r.
  destruct (Ascii.eqb c "<"); [|done].
  destruct r as [|d r']; [done|].
  apply ascii_eqb_spec in H1. subst d. simpl.
  rewrite is_ws_gt, andb_false_r. done.
Qed.

Lemma rtrim_idem (s : string) : rtrim (rtrim s) = rtrim s.
Proof.
  induction s as [|c r IH]; [done|].
  simpl. destruct (String.eqb (rtrim r) "" && is_ws c) eqn:E; [done|].
  simpl. rewrite IH, E. done.
Qed.

Definition head_not_ws (s : string) : Prop :=
  match s with EmptyString => True | String c _ => is_ws c = false end.

Lemma ltrim_head (s : string) : head_not_ws (ltrim s).
Proof.
  induction s as [|c r IH]; [done|].
  simpl. destruct (is_ws c) eqn:E; [exact IH|exact E].
Qed.

Lemma ltrim_fix (s : string) : head_not_ws s -> ltrim s = s.
Proof. destruct s as [|c r]; [done|]. simpl. intros ->. done. Qed.

Lemma rtrim_head (s : string) : head_not_ws s -> head_not_ws (rtrim s).
Proof.
  destruct s as [|c r]; [done|]. simpl. intros E.
  destruct (String.eqb (rtrim r) "" && is_ws c); [done|exact E].
Qed.

Lemma trim_idem (s : string) : trim (trim s) = trim s.
Proof.
  unfold trim. rewrite (ltrim_fix (rtrim (ltrim s))).
  - apply rtrim_idem.
  - apply rtrim_head, ltrim_head.
Qed.

Lemma trim_tag_free (s : string) : tag_free s = true -> tag_free (trim s) = true.
Proof. intros H. unfold trim. by apply rtrim_tag_free, ltrim_tag_free. Qed.

(** C5: the sanitizer is idempotent; its result on a string leaves no position
    where the tag pattern matches (so a second replacement changes nothing)
    and is its own [trim]; [<script>alert(1)</script>] becomes [alert(1)];
    a non-string value is returned unchanged. *)
Theorem sanitize_idempotent_strips_tags :
  (forall v, sanitize (sanitize v) = sanitize v)
  /\ (forall s, exists t, sanitize (JStr s) = JStr t
        /\ tag_free t = true /\ strip_tags t = t /\ trim t = t)
  /\ sanitize (JStr "<script>alert(1)</script>") = JStr "alert(1)"
  /\ (forall v, (forall s, v <> JStr s) -> sanitize v = v).
Proof.
  split; [|split; [|split]].
  - intros [| | | |s]; try reflexivity. simpl.
    rewrite (strip_tags_id (trim (strip_tags s))).
    + by rewrite trim_idem.
    + apply trim_tag_free, strip_tags_tag_free.
  - intros s. exists (trim (strip_tags s)).
    assert (Ht : tag_free (trim (strip_tags s)) = true)
      by apply trim_tag_free, strip_tags_tag_free.
    split; [done|]. split; [done|]. split; [by apply strip_tags_id|].
    apply trim_idem.
  - reflexivity.
  - intros [| | | |s] H; try reflexivity. exfalso. by apply (H s).
Qed.

(* ------------------------------------------------------------------ *)
(** ** Field validation *)

Lemma keys_check (ok : bool) (k m : string) :
  map fst (check ok k m) = if ok then [] else [k].
Proof. by destruct ok. Qed.

Lemma keys_000 (date_value : jsval -> option Z) (today : Z) (b : complaint) :
  map fst (validationErrors_000 date_value today b)
  = map field_key (List.filter (fun f => negb (valid_000 date_value today f (get_field f b))) order_000).
Proof.
  unfold validationErrors_000. rewrite !map_app, !keys_check.
  cbn [order_000 List.filter valid_000 get_field].
  destruct (v_username (username b)), (v_email (email b)), (v_platform (platform b)),
    (v_issueType (issueType b)), (v_description (description b)),
    (v_dateOfIssue date_value today (dateOfIssue b)), (v_phoneNumber (phoneNumber b)),
    (v_gameId (gameId b)); reflexivity.
Qed.

Lemma keys_srv (date_value : jsval -> option Z) (t : Z) (b : complaint) :
  map fst (validationErrors_srv date_value t b)
  = map field_key (List.filter (fun f => negb (valid_srv date_value t f (get_field f b))) order_srv).
Proof.
  unfold validationErrors_srv. rewrite !map_app, !keys_check.
  cbn [order_srv List.filter valid_srv get_field].
  destruct (negb (truthy (username b)) || length_lt (username b) 3 || length_gt (username b) 50),
    (negb (truthy (email b)) || negb (email_re_srv (js_to_string (email b)))),
    (truthy (issueType b)),
    (negb (truthy (description b)) || length_gt (description b) 2000),
    (negb (truthy (dateOfIssue b))
     || match date_value (dateOfIssue b) with Some x => t <? x | None => false end),
    (negb (truthy (phoneNumber b)) || negb (phone_re (js_to_string (phoneNumber b))));
    reflexivity.
Qed.

Lemma filter_single {A} `{EqDecision A} (p : A -> bool) (l : list A) (x : A) :
  NoDup l -> In x l -> p x = true -> (forall y, y <> x -> p y = false) ->
  List.filter p l = [x].
Proof.
  induction l as [|a l IH]; intros Hnd Hin Hx Hy; [done|].
  apply NoDup_cons in Hnd as [Hna Hnd].
  simpl. destruct (decide (a = x)) as [->|Hne].
  - rewrite Hx. f_equal.
    clear IH Hin. induction l as [|c l IHl]; [done|].
    simpl. rewrite Hy.
    + apply IHl; [intros H; apply Hna; by right|by apply NoDup_cons in Hnd as [_ ?]].
    + intros ->. apply Hna. by left.
  - rewrite Hy; [|done].
    apply IH; [done| |done|done].
    destruct Hin as [->|Hin]; [done|exact Hin].
Qed.

Lemma order_000_nodup : NoDup order_000.
Proof. apply (bool_decide_unpack _). vm_compute. exact I. Qed.

Lemma order_srv_nodup : NoDup order_srv.
Proof. apply (bool_decide_unpack _). vm_compute. exact I. Qed.

Lemma in_order_000 (f : field) : In f order_000.
Proof. destruct f; simpl; tauto. Qed.

Lemma errors_nil_keys (l : list (string * string)) : map fst l = [] -> l = [].
Proof. by destruct l. Qed.

(** C4 (as the code does it): both handlers evaluate every check of theirs
    and report one key per failing check, in source order; a field that
    alone fails yields exactly its key; a non-empty map is answered with a
    400 carrying it.  part_000 checks all eight fields; server.js checks
    username, email, issueType, description, dateOfIssue and phoneNumber,
    and never reports platform or gameId. *)
Theorem validation_errors_per_field :
  (forall date_value today b,
     map fst (validationErrors_000 date_value today b)
     = map field_key (List.filter (fun f => negb (valid_000 date_value today f (get_field f b))) order_000))
  /\ (forall date_value today b f,
        valid_000 date_value today f (get_field f b) = false ->
        (forall g, g <> f -> valid_000 date_value today g (get_field g b) = true) ->
        map fst (validationErrors_000 date_value today b) = [field_key f])
  /\ (forall date_value today now out b,
        validationErrors_000 date_value today b <> [] ->
        send_complaint_000 date_value today now out b
        = (Bad (validationErrors_000 date_value today b), None))
  /\ (forall date_value t b,
        map fst (validationErrors_srv date_value t b)
        = map field_key (List.filter (fun f => negb (valid_srv date_value t f (get_field f b))) order_srv))
  /\ (forall date_value t b f,
        In f order_srv ->
        valid_srv date_value t f (get_field f b) = false ->
        (forall g, g <> f -> valid_srv date_value t g (get_field g b) = true) ->
        map fst (validationErrors_srv date_value t b) = [field_key f])
  /\ (forall date_value t b,
        ~ In "platform" (map fst (validationErrors_srv date_value t b))
        /\ ~ In "gameId" (map fst (validationErrors_srv date_value t b)))
  /\ (forall date_value ck b t1 t2 t3 out st,
        validateCsrfToken ck t1 st = None ->
        validationErrors_srv date_value t2 b <> [] ->
        send_complaint date_value false ck b t1 t2 t3 out st
        = (Bad (validationErrors_srv date_value t2 b), st, None)).
Proof.
  split; [exact keys_000|]. split.
  { intros dv today b f Hf Hg. rewrite keys_000.
    rewrite (filter_single _ _ f); [done|apply order_000_nodup|apply in_order_000|by rewrite Hf|].
    intros g Hne. by rewrite Hg. }
  split.
  { intros dv today now out b Hne. unfold send_complaint_000.
    destruct (validationErrors_000 dv today b); [done|reflexivity]. }
  split; [exact keys_srv|]. split.
  { intros dv t b f Hin Hf Hg. rewrite keys_srv.
    rewrite (filter_single _ _ f); [done|apply order_srv_nodup|exact Hin|by rewrite Hf|].
    intros g Hne. by rewrite Hg. }
  split.
  { intros dv t b. rewrite keys_srv. cbn [order_srv List.filter].
    split; intros Hin; repeat (destruct (negb _); simpl in Hin);
      repeat (destruct Hin as [Hin|Hin]; [discriminate Hin|]); exact Hin. }
  intros dv ck b t1 t2 t3 out st Hv Hne. unfold send_complaint. simpl. rewrite Hv.
  destruct (validationErrors_srv dv t2 b); [done|reflexivity].
Qed.

(** C4: counterexample.  In server.js a submission whose only invalid field
    is [platform] gets no error at all. *)
Lemma validation_errors_platform_unchecked :
  let b := with_platform (JStr "OTHER") sample_body in
  valid_000 sample_date sample_now F_platform (get_field F_platform b) = false
  /\ (forall g, g <> F_platform -> valid_000 sample_date sample_now g (get_field g b) = true)
  /\ validationErrors_srv sample_date sample_now b = [].
Proof.
  split; [vm_compute; reflexivity|]. split; [|vm_compute; reflexivity].
  intros [] H; try (vm_compute; reflexivity). done.
Qed.

(** C6 (as the code does it): [validators.username] of part_000 accepts
    exactly the strings of trimmed length 3 to 50 whose characters are all in
    [[A-Za-z0-9_]], and the part_000 handler reports a username error exactly
    when it rejects; the server.js handler reports a username error exactly
    when the value is falsy or its [length] is below 3 or above 50, with no
    type, trim or character check. *)
Theorem username_validation :
  (forall v, v_username v = true
     <-> exists s, v = JStr s /\ (3 <= String.length (trim s) <= 50)%nat
                   /\ forall_chars is_word s = true)
  /\ (forall date_value today b,
        In "username" (map fst (validationErrors_000 date_value today b))
        <-> v_username (username b) = false)
  /\ (forall date_value t b,
        In "username" (map fst (validationErrors_srv date_value t b))
        <-> truthy (username b) = false
            \/ exists l, js_length (username b) = Some l /\ (l < 3 \/ 50 < l)).
Proof.
  split; [|split].
  - intros v. split.
    + destruct v as [| | | |s]; try discriminate. unfold v_username.
      intros H. apply andb_prop in H as [H H3]. apply andb_prop in H as [H1 H2].
      apply andb_prop in H3 as [_ H3].
      apply Nat.leb_le in H1, H2. exists s. auto.
    + intros (s & -> & [H1 H2] & H3). unfold v_username, class_plus.
      apply Nat.leb_le in H1, H2. rewrite H1, H2, H3.
      destruct s; [simpl in H1; lia|reflexivity].
  - intros dv today b. rewrite keys_000. cbn [order_000 List.filter valid_000 get_field].
    destruct (v_username (username b)); simpl.
    + split; [|discriminate]. intros Hin.
      repeat (destruct (negb _); simpl in Hin);
        repeat (destruct Hin as [Hin|Hin]; [discriminate Hin|]); contradiction.
    + split; [reflexivity|]. intros _. by left.
  - intros dv t b. rewrite keys_srv. cbn [order_srv List.filter valid_srv get_field].
    destruct (negb (truthy (username b)) || length_lt (username b) 3
              || length_gt (username b) 50) eqn:E; simpl.
    + split; [intros _|by left].
      apply orb_prop in E as [E|E]; [apply orb_prop in E as [E|E]|].
      * left. by destruct (truthy (username b)).
      * right. unfold length_lt in E. destruct (js_length (username b)) as [l|]; [|done].
        exists l. split; [done|]. left. by apply Z.ltb_lt.
      * right. unfold length_gt in E. destruct (js_length (username b)) as [l|]; [|done].
        exists l. split; [done|]. right. by apply Z.ltb_lt.
    + split.
      * intros Hin. exfalso.
        repeat (destruct (negb _); simpl in Hin);
          repeat (destruct Hin as [Hin|Hin]; [discriminate Hin|]); contradiction.
      * intros [H|(l & Hl & H)]; exfalso.
        -- rewrite H in E. discriminate.
        -- unfold length_lt, length_gt in E. rewrite Hl in E.
           apply orb_false_iff in E as [E E3]. apply orb_false_iff in E as [_ E2].
           apply Z.ltb_ge in E2, E3. lia.
Qed.

(** C6: counterexample.  server.js accepts the username ["a b"], whose
    space is outside [[A-Za-z0-9_]] (part_000 rejects it). *)
Lemma username_charset_unchecked_srv :
  forall_chars is_word "a b" = false
  /\ v_username (JStr "a b") = false
  /\ ~ In "username" (map fst (validationErrors_srv sample_date sample_now
                                 (with_username (JStr "a b") sample_body))).
Proof.
  split; [reflexivity|]. split; [reflexivity|].
  vm_compute. intros H. exact H.
Qed.

(* ------------------------------------------------------------------ *)
(** ** CSRF validation *)

Lemma validate_reject_403 (ck : cookies) (now : Z) (st : gmap string token_data) (r : reply) :
  validateCsrfToken ck now st = Some r -> status r = 403 /\ success r = false.
Proof.
  unfold validateCsrfToken.
  destruct (c_sessionId ck) as [sid|], (c_csrfToken ck) as [tok|];
    try (intros [= <-]; done).
  destruct (String.eqb sid "" || String.eqb tok ""); [intros [= <-]; done|].
  destruct (st !! sid) as [d|]; [|intros [= <-]; done].
  destruct (negb (String.eqb (token d) tok) || (expires d <? now)); [intros [= <-]|]; done.
Qed.

Lemma validate_pass_iff (ck : cookies) (now : Z) (st : gmap string token_data) :
  validateCsrfToken ck now st = None
  <-> exists sid tok d, c_sessionId ck = Some sid /\ c_csrfToken ck = Some tok
      /\ sid <> "" /\ tok <> "" /\ st !! sid = Some d /\ token d = tok /\ now <= expires d.
Proof.
  unfold validateCsrfToken. split.
  - destruct (c_sessionId ck) as [sid|], (c_csrfToken ck) as [tok|]; try discriminate.
    destruct (String.eqb sid "") eqn:E1; [discriminate|].
    destruct (String.eqb tok "") eqn:E2; [discriminate|]. simpl.
    destruct (st !! sid) as [d|] eqn:Ed; [|discriminate].
    destruct (String.eqb (token d) tok) eqn:E3; [|discriminate].
    destruct (expires d <? now) eqn:E4; [discriminate|]. intros _.
    apply String.eqb_neq in E1, E2. apply String.eqb_eq in E3. apply Z.ltb_ge in E4.
    exists sid, tok, d. auto 10.
  - intros (sid & tok & d & -> & -> & H1 & H2 & Hd & H3 & H4).
    apply String.eqb_neq in H1, H2. rewrite H1, H2, Hd. simpl.
    rewrite H3, String.eqb_refl. simpl. apply Z.ltb_ge in H4. by rewrite H4.
Qed.

(** C1 (as the code does it): the middleware answers 403 with
    [success:false] exactly when a cookie is absent or empty, no record
    exists for the session, the stored token differs from the cookie, or the
    record's [expires] is strictly below the current time; a record is thus
    accepted up to and including the millisecond [expires].  For a request
    the rate limiter lets through, the handler answers 403 exactly when the
    middleware rejects.  The sweep of [GET /get-csrf-token] applies the
    same test: after the new record is written, an entry survives exactly
    when the clock read at its visit is at most its [expires]. *)
Theorem csrf_validation_fails_closed :
  (forall ck now (st : gmap string token_data) r,
     validateCsrfToken ck now st = Some r -> status r = 403 /\ success r = false)
  /\ (forall ck now (st : gmap string token_data),
        validateCsrfToken ck now st <> None
        <-> (cookie_truthy (c_sessionId ck) = false \/ cookie_truthy (c_csrfToken ck) = false
             \/ exists sid tok, c_sessionId ck = Some sid /\ c_csrfToken ck = Some tok
                 /\ (st !! sid = None
                     \/ exists d, st !! sid = Some d /\ (token d <> tok \/ expires d < now))))
  /\ (forall date_value ck b t1 t2 t3 out st,
        status (send_complaint date_value false ck b t1 t2 t3 out st).1.1 = 403
        <-> validateCsrfToken ck t1 st <> None)
  /\ (forall c fs ft now clk (st : gmap string token_data) k d,
        (get_csrf_token c fs ft now clk st).1.1 !! k = Some d
        <-> <[(if cookie_truthy c then default "" c else fs) := generateSecureToken ft now]> st
              !! k = Some d
            /\ clk k <= expires d).
Proof.
  split; [exact validate_reject_403|]. split; [|split].
  - intros ck now st. rewrite validate_pass_iff. unfold cookie_truthy. split.
    + intros Hn.
      destruct (c_sessionId ck) as [sid|] eqn:Es; [|by left].
      destruct (String.eqb sid "") eqn:E1; [by left|].
      destruct (c_csrfToken ck) as [tok|] eqn:Et; [|by right; left].
      destruct (String.eqb tok "") eqn:E2; [by right; left|].
      right; right. exists sid, tok. split; [done|]. split; [done|].
      destruct (st !! sid) as [d|] eqn:Ed; [|by left]. right. exists d. split; [done|].
      destruct (String.eqb (token d) tok) eqn:E3.
      * apply String.eqb_eq in E3. right.
        destruct (Z.lt_ge_cases (expires d) now) as [?|Hge]; [done|].
        exfalso. apply Hn. apply String.eqb_neq in E1, E2. exists sid, tok, d. auto 10.
      * left. by apply String.eqb_neq.
    + intros H (sid & tok & d & Hs & Ht & H1 & H2 & Hd & H3 & H4).
      rewrite Hs, Ht in H. apply String.eqb_neq in H1, H2. rewrite H1, H2 in H.
      destruct H as [H|[H|(sid' & tok' & [= <-] & [= <-] & [H|(d' & Hd' & H)])]];
        try discriminate; [congruence|].
      rewrite Hd in Hd'. injection Hd' as <-. destruct H; [done|lia].
  - intros dv ck b t1 t2 t3 out st. unfold send_complaint. simpl.
    destruct (validateCsrfToken ck t1 st) as [r|] eqn:Ev.
    + simpl. split; [done|]. intros _. by apply (validate_reject_403 ck t1 st).
    + split; [|done]. simpl.
      destruct (negb (Nat.eqb (List.length (validationErrors_srv dv t2 b)) 0)); [done|].
      by destruct out.
  - intros c fs ft now clk st k d. unfold get_csrf_token. simpl.
    rewrite map_lookup_filter_Some. simpl. split; intros [H1 H2]; split; try done; lia.
Qed.

(** C1: counterexample.  A record whose [expires] equals the current time is
    expired by the stated invariant ([now < expiresAt] fails) and still
    passes the middleware. *)
Lemma csrf_accepts_at_expiry :
  ~ (100 < expires {| token := "t1"; expires := 100 |})
  /\ validateCsrfToken {| c_sessionId := Some "s1"; c_csrfToken := Some "t1" |} 100
       {[ "s1" := {| token := "t1"; expires := 100 |} ]} = None.
Proof. split; [simpl; lia|vm_compute; reflexivity]. Qed.

(* ------------------------------------------------------------------ *)
(** ** Token issuance *)

Lemma get_csrf_token_eq (c : option string) (fs ft : string) (now : Z) (clk : string -> Z)
    (st : gmap string token_data) :
  get_csrf_token c fs ft now clk st
  = (filter (fun kd : string * token_data => ~ (expires kd.2 < clk kd.1))
       (<[(if cookie_truthy c then default "" c else fs) := generateSecureToken ft now]> st),
     Ok_token, (if cookie_truthy c then default "" c else fs, ft)).
Proof. reflexivity. Qed.

Lemma issued_sid_nonempty (c : option string) (fs : string) :
  fs <> "" -> (if cookie_truthy c then default "" c else fs) <> "".
Proof.
  intros Hfs. destruct c as [s|]; simpl; [|exact Hfs].
  destruct (String.eqb s "") eqn:E; simpl; [exact Hfs|]. by apply String.eqb_neq.
Qed.

(** C8: issuance stores the fresh token under the session's identifier
    (the cookie's when it is non-empty, a fresh one otherwise) with expiry
    [now + 30 min], overwriting any earlier record; after the sweep every
    remaining record has an expiry no earlier than the clock reading at which
    the loop visited it, hence not before [now]; every other record is kept
    exactly when it was not expired at its visit.  The sweep is assumed to
    run within 30 minutes of [now]. *)
Theorem csrf_issue_overwrites_and_sweeps :
  forall ck_sid fresh_sid fresh_tok now (clk : string -> Z)
         (st st' : gmap string token_data) r sid tok,
  get_csrf_token ck_sid fresh_sid fresh_tok now clk st = (st', r, (sid, tok)) ->
  (forall k, now <= clk k <= now + 30 * 60 * 1000) ->
  r = Ok_token /\ tok = fresh_tok
  /\ sid = (if cookie_truthy ck_sid then default "" ck_sid else fresh_sid)
  /\ st' !! sid = Some {| token := fresh_tok; expires := now + 30 * 60 * 1000 |}
  /\ (forall k d, st' !! k = Some d -> clk k <= expires d /\ now <= expires d)
  /\ (forall k d, k <> sid -> (st' !! k = Some d <-> st !! k = Some d /\ clk k <= expires d)).
Proof.
  intros ck_sid fs ft now clk st st' r sid tok H Hclk.
  rewrite get_csrf_token_eq in H. injection H as <- <- <- <-.
  split; [done|]. split; [done|]. split; [done|]. split; [|split].
  - apply map_lookup_filter_Some_2; [apply lookup_insert_eq|].
    simpl. specialize (Hclk (if cookie_truthy ck_sid then default "" ck_sid else fs)). lia.
  - intros k d Hk. apply map_lookup_filter_Some_1_2 in Hk. simpl in Hk.
    specialize (Hclk k). lia.
  - intros k d Hne. rewrite map_lookup_filter_Some, lookup_insert_ne by congruence.
    simpl. split; intros [H1 H2]; split; try done; lia.
Qed.

(* ------------------------------------------------------------------ *)
(** ** One-time use, atomicity and frame of the submission *)

(** C2: after issuance, the cookies set validate (within the 30 minutes);
    a submission that passes the field checks and whose mail is sent
    succeeds and deletes the session's record; afterwards every validation
    with the same cookies, at any time, is rejected with 403, and every later
    submission with them is refused without touching the store. *)
Theorem csrf_token_one_time :
  forall date_value ck_sid fresh_sid fresh_tok t0 (clk : string -> Z)
         (st st1 : gmap string token_data) r sid tok b t1 t2 t3,
  get_csrf_token ck_sid fresh_sid fresh_tok t0 clk st = (st1, r, (sid, tok)) ->
  fresh_sid <> "" -> fresh_tok <> "" ->
  (forall k, clk k <= t0 + 30 * 60 * 1000) ->
  t1 <= t0 + 30 * 60 * 1000 ->
  validationErrors_srv date_value t2 b = [] ->
  let ck := {| c_sessionId := Some sid; c_csrfToken := Some tok |} in
  validateCsrfToken ck t1 st1 = None
  /\ send_complaint date_value false ck b t1 t2 t3 SendOk st1
     = (Ok_ref (refNumber t3), delete sid st1, Some (mail_srv (refNumber t3) b))
  /\ (forall limited b' t1' t2' t3' out',
        validateCsrfToken ck t1' (delete sid st1) = Some (Forbidden msg_invalid)
        /\ send_complaint date_value limited ck b' t1' t2' t3' out' (delete sid st1)
           = (if limited then TooMany else Forbidden msg_invalid, delete sid st1, None)).
Proof.
  intros dv ck_sid fs ft t0 clk st st1 r sid tok b t1 t2 t3 H Hfs Hft Hclk Ht1 Herr ck.
  pose proof (issued_sid_nonempty ck_sid fs Hfs) as Hsid.
  rewrite get_csrf_token_eq in H. injection H as Hst <- Hs Ht. subst sid tok st1.
  set (sid := if cookie_truthy ck_sid then default "" ck_sid else fs) in *.
  assert (Hv : validateCsrfToken ck t1
     (filter (fun kd : string * token_data => ~ (expires kd.2 < clk kd.1))
        (<[sid:=generateSecureToken ft t0]> st)) = None).
  { apply validate_pass_iff. exists sid, ft, (generateSecureToken ft t0).
    split; [done|]. split; [done|]. split; [done|]. split; [done|].
    split; [|simpl; split; [done|lia]].
    apply map_lookup_filter_Some_2; [apply lookup_insert_eq|]. simpl.
    specialize (Hclk sid). lia. }
  assert (Hrej : forall t, validateCsrfToken ck t
     (delete sid (filter (fun kd : string * token_data => ~ (expires kd.2 < clk kd.1))
        (<[sid:=generateSecureToken ft t0]> st))) = Some (Forbidden msg_invalid)).
  { intros t. unfold validateCsrfToken. simpl.
    apply String.eqb_neq in Hsid, Hft. rewrite Hsid, Hft. simpl.
    by rewrite lookup_delete_eq. }
  split; [exact Hv|]. split.
  - unfold send_complaint. simpl. rewrite Hv, Herr. simpl.
    unfold consume. simpl. apply String.eqb_neq in Hsid. by rewrite Hsid.
  - intros l b' t1' t2' t3' out'. split; [apply Hrej|].
    unfold send_complaint. destruct l; [done|]. by rewrite Hrej.
Qed.

(** C3: every [POST /send-complaint] either succeeds, with the reference
    number returned and the session's record deleted, or fails with 400,
    403, 429 or 500 and leaves the token store as it was. *)
Theorem send_complaint_atomic :
  forall date_value limited ck b t1 t2 t3 out (st : gmap string token_data),
  let res := send_complaint date_value limited ck b t1 t2 t3 out st in
  (success res.1.1 = true /\ res.1.1 = Ok_ref (refNumber t3)
   /\ exists sid, c_sessionId ck = Some sid /\ res.1.2 = delete sid st)
  \/ (success res.1.1 = false /\ res.1.2 = st /\ In (status res.1.1) [400; 403; 429; 500]).
Proof.
  intros dv l ck b t1 t2 t3 out st res. subst res. unfold send_complaint.
  destruct l; [right; simpl; auto 10|].
  destruct (validateCsrfToken ck t1 st) as [r0|] eqn:Ev.
  - right. simpl. apply validate_reject_403 in Ev as [Hs Hsu].
    rewrite Hs, Hsu. simpl. auto 10.
  - destruct (negb (Nat.eqb (List.length (validationErrors_srv dv t2 b)) 0)).
    { right. simpl. auto 10. }
    destruct out; [left|right; simpl; auto 10 ..].
    apply validate_pass_iff in Ev as (sid & tok & d & Hs & _ & Hne & _).
    simpl. split; [done|]. split; [done|]. exists sid. split; [done|].
    unfold consume. rewrite Hs. apply String.eqb_neq in Hne. by rewrite Hne.
Qed.

(** C9: the middleware only reads the store: when it rejects, the request
    ends with its reply and the store unchanged.  Over a whole request the
    store changes only through issuance or through the deletion after a
    mail that was sent. *)
Theorem token_store_frame :
  (forall date_value limited ck b t1 t2 t3 out (st : gmap string token_data) r,
     validateCsrfToken ck t1 st = Some r ->
     send_complaint date_value limited ck b t1 t2 t3 out st
     = (if limited then TooMany else r, st, None))
  /\ (forall date_value rq (st : gmap string token_data),
        (serve date_value rq st).2 = st
        \/ (exists c fs ft now clk, rq = GetToken c fs ft now clk
              /\ (serve date_value rq st).2 = (get_csrf_token c fs ft now clk st).1.1)
        \/ (exists limited ck b t1 t2 t3, rq = PostComplaint limited ck b t1 t2 t3 SendOk
              /\ limited = false /\ validateCsrfToken ck t1 st = None
              /\ validationErrors_srv date_value t2 b = []
              /\ (serve date_value rq st).1 = Ok_ref (refNumber t3)
              /\ (serve date_value rq st).2 = consume ck st)).
Proof.
  split.
  - intros dv l ck b t1 t2 t3 out st r Hv. unfold send_complaint.
    destruct l; [done|]. by rewrite Hv.
  - intros dv [c fs ft now clk|l ck b t1 t2 t3 out] st.
    + right; left. exists c, fs, ft, now, clk. split; [done|].
      simpl. by destruct (get_csrf_token c fs ft now clk st) as [[? ?] ?].
    + simpl. unfold send_complaint.
      destruct l; [by left|].
      destruct (validateCsrfToken ck t1 st) as [r0|] eqn:Ev; [by left|].
      destruct (validationErrors_srv dv t2 b) eqn:Ee; [|by left].
      simpl. destruct out; [|by left ..].
      right; right. exists false, ck, b, t1, t2, t3. auto 10.
Qed.

(* ------------------------------------------------------------------ *)
(** ** Reference numbers *)

Lemma dec_digits_app (f : nat) (n : Z) (acc : list Z) :
  dec_digits f n acc = (dec_digits f n [] ++ acc)%list.
Proof.
  revert n acc. induction f as [|f IH]; intros n acc; [done|].
  simpl. destruct (n <? 10); [done|].
  rewrite (IH _ (n mod 10 :: acc)), (IH _ [n mod 10]), <- app_assoc. done.
Qed.

Lemma fold_digits_acc (l : list Z) (acc : Z) :
  fold_left (fun a d => 10 * a + d) l acc
  = acc * 10 ^ Z.of_nat (List.length l) + digits_value l.
Proof.
  unfold digits_value. revert acc. induction l as [|d l IH]; intros acc;
    cbn [fold_left List.length]; [lia|].
  rewrite (IH (10 * acc + d)), (IH (10 * 0 + d)).
  rewrite Nat2Z.inj_succ, Z.pow_succ_r by lia. ring.
Qed.

Lemma digits_value_app (l1 l2 : list Z) :
  digits_value (l1 ++ l2)%list = digits_value l1 * 10 ^ Z.of_nat (List.length l2) + digits_value l2.
Proof. unfold digits_value at 1. rewrite fold_left_app. apply fold_digits_acc. Qed.

Lemma digits_value_bound (l : list Z) :
  Forall (fun d => 0 <= d < 10) l -> 0 <= digits_value l < 10 ^ Z.of_nat (List.length l).
Proof.
  induction l as [|d l IH]; intros Hl; [simpl; unfold digits_value; simpl; lia|].
  apply Forall_cons in Hl as [Hd Hl]. specialize (IH Hl).
  assert (E : digits_value (d :: l) = d * 10 ^ Z.of_nat (List.length l) + digits_value l).
  { unfold digits_value at 1. cbn [fold_left]. rewrite fold_digits_acc. ring. }
  rewrite E. cbn [List.length]. rewrite Nat2Z.inj_succ, Z.pow_succ_r by lia.
  assert (0 < 10 ^ Z.of_nat (List.length l)) by (apply Z.pow_pos_nonneg; lia). nia.
Qed.

Lemma dec_digits_spec (f : nat) (n : Z) :
  0 <= n < 10 ^ Z.of_nat f ->
  Forall (fun d => 0 <= d < 10) (dec_digits f n [])
  /\ digits_value (dec_digits f n []) = n
  /\ (forall k : nat, 10 ^ Z.of_nat k <= n -> (k < List.length (dec_digits f n []))%nat).
Proof.
  revert n. induction f as [|f IH]; intros n Hn.
  - simpl in Hn. assert (n = 0) as -> by lia. simpl.
    split; [constructor|]. split; [reflexivity|].
    intros k Hk. assert (0 < 10 ^ Z.of_nat k) by (apply Z.pow_pos_nonneg; lia). lia.
  - simpl. destruct (n <? 10) eqn:E.
    + apply Z.ltb_lt in E. split; [constructor; [lia|constructor]|].
      split; [reflexivity|]. intros [|k] Hk; simpl; [lia|].
      rewrite Nat2Z.inj_succ, Z.pow_succ_r in Hk by lia.
      assert (0 < 10 ^ Z.of_nat k) by (apply Z.pow_pos_nonneg; lia). lia.
    + apply Z.ltb_ge in E. rewrite dec_digits_app.
      assert (Hq : 0 <= n / 10 < 10 ^ Z.of_nat f).
      { rewrite Nat2Z.inj_succ, Z.pow_succ_r in Hn by lia.
        split; [apply Z.div_pos; lia|]. apply Z.div_lt_upper_bound; lia. }
      destruct (IH (n / 10) Hq) as (H1 & H2 & H3).
      split; [apply Forall_app; split; [exact H1|constructor; [|constructor]]|].
      { pose proof (Z.mod_pos_bound n 10). lia. }
      split.
      * rewrite digits_value_app, H2. unfold digits_value at 1.
        cbn [fold_left List.length]. change (Z.of_nat 1) with 1. rewrite Z.pow_1_r.
        pose proof (Z.div_mod n 10). lia.
      * intros [|k] Hk; rewrite length_app; simpl; [lia|].
        enough (k < List.length (dec_digits f (n / 10) []))%nat by lia.
        apply H3. rewrite Nat2Z.inj_succ, Z.pow_succ_r in Hk by lia.
        apply Z.div_le_lower_bound; lia.
Qed.

Lemma length_string_of_digits (l : list Z) :
  String.length (string_of_digits l) = List.length l.
Proof. induction l; simpl; congruence. Qed.

Lemma substring_string_of_digits (n m : nat) (l : list Z) :
  substring n m (string_of_digits l) = string_of_digits (firstn m (skipn n l)).
Proof.
  revert n m. induction l as [|d l IH]; intros n m.
  - destruct n, m; reflexivity.
  - destruct n as [|n]; [destruct m as [|m]|]; simpl; [done| |apply IH].
    f_equal. rewrite (IH 0%nat m). done.
Qed.

Lemma digit_char_value (d : Z) : 0 <= d < 10 ->
  digit_value (digit_char d) = d /\ is_digit (digit_char d) = true.
Proof.
  intros Hd. unfold digit_value, digit_char, is_digit, in_range.
  rewrite Ascii.nat_ascii_embedding by lia.
  split; [lia|]. change (nat_of_ascii "0") with 48%nat. change (nat_of_ascii "9") with 57%nat.
  apply andb_true_intro. split; apply Nat.leb_le; lia.
Qed.

Lemma string_of_digits_value (l : list Z) (acc : Z) :
  Forall (fun d => 0 <= d < 10) l ->
  decimal_value_acc acc (string_of_digits l) = fold_left (fun a d => 10 * a + d) l acc
  /\ forall_chars is_digit (string_of_digits l) = true.
Proof.
  revert acc. induction l as [|d l IH]; intros acc Hl; [done|].
  apply Forall_cons in Hl as [Hd Hl]. destruct (digit_char_value d Hd) as [E1 E2].
  cbn [decimal_value_acc string_of_digits forall_chars fold_left].
  rewrite E1, E2. destruct (IH (10 * acc + d) Hl) as [-> ->]. done.
Qed.

Lemma refNumber_digits (now : Z) :
  10 ^ 7 <= now < 10 ^ 21 ->
  exists d, refNumber now = "PENA-" ++ d /\ d = slice_last 8 (number_to_string now)
    /\ String.length d = 8%nat /\ forall_chars is_digit d = true
    /\ decimal_value d = now mod 10 ^ 8.
Proof.
  intros Hn. exists (slice_last 8 (number_to_string now)).
  split; [reflexivity|]. split; [reflexivity|].
  unfold number_to_string. replace (now <? 0) with false by (symmetry; apply Z.ltb_ge; lia).
  unfold nat_to_string, slice_last.
  destruct (dec_digits_spec 21 now ltac:(simpl; lia)) as (Hf & Hv & Hl).
  set (l := dec_digits 21 now []) in *.
  specialize (Hl 7%nat ltac:(simpl; lia)).
  rewrite length_string_of_digits, substring_string_of_digits.
  set (l2 := skipn (List.length l - 8) l).
  assert (Hl2 : List.length l2 = 8%nat) by (subst l2; rewrite length_skipn; lia).
  rewrite firstn_all2 by lia.
  assert (Hsplit : (firstn (List.length l - 8) l ++ l2)%list = l) by apply firstn_skipn.
  assert (Hf2 : Forall (fun d => 0 <= d < 10) l2) by (apply Forall_drop; exact Hf).
  destruct (string_of_digits_value l2 0 Hf2) as [Hd Hc].
  split; [by rewrite length_string_of_digits|]. split; [exact Hc|].
  unfold decimal_value. rewrite Hd. fold (digits_value l2).
  rewrite <- Hv, <- Hsplit, digits_value_app, Hl2.
  pose proof (digits_value_bound l2 Hf2) as Hb. rewrite Hl2 in Hb.
  rewrite Z.add_comm, Z.mod_add by (simpl; lia).
  symmetry. apply Z.mod_small. simpl in Hb |- *. lia.
Qed.

(** C7: when every check passes and the mail is sent, the part_000 handler
    and the server.js handler (for a request its middleware admits) answer
    [success:true] with [refNumber now]; for a clock reading of 8 to 21
    digits that is ["PENA-"] followed by exactly 8 decimal digits, the last
    8 of [now], denoting [now mod 10^8]. *)
Theorem reference_number_on_success :
  (forall date_value today now b,
     validationErrors_000 date_value today b = [] ->
     send_complaint_000 date_value today now SendOk b
     = (Ok_ref (refNumber now), Some (mail_000 (refNumber now) b)))
  /\ (forall date_value ck b t1 t2 t3 (st : gmap string token_data),
        validateCsrfToken ck t1 st = None ->
        validationErrors_srv date_value t2 b = [] ->
        (send_complaint date_value false ck b t1 t2 t3 SendOk st).1.1 = Ok_ref (refNumber t3))
  /\ (forall now, 10 ^ 7 <= now < 10 ^ 21 ->
        exists d, refNumber now = "PENA-" ++ d /\ d = slice_last 8 (number_to_string now)
          /\ String.length d = 8%nat /\ forall_chars is_digit d = true
          /\ decimal_value d = now mod 10 ^ 8).
Proof.
  split; [|split; [|exact refNumber_digits]].
  - intros dv today now b H. unfold send_complaint_000. by rewrite H.
  - intros dv ck b t1 t2 t3 st Hv He. unfold send_complaint. simpl. by rewrite Hv, He.
Qed.

(** C7: divergence.  A description of two spaces around 2000 characters
    meets the description constraint (trimmed length 2000): part_000 accepts
    the submission and answers with its reference number, while server.js,
    which measures the untrimmed length, answers 400 with a description
    error. *)
Lemma reference_number_padded_description :
  let b := with_description (JStr padded_description) sample_body in
  String.length padded_description = 2002%nat
  /\ String.length (trim padded_description) = 2000%nat
  /\ v_description (description b) = true
  /\ validationErrors_000 sample_date sample_now b = []
  /\ send_complaint_000 sample_date sample_now sample_now SendOk b
     = (Ok_ref (refNumber sample_now), Some (mail_000 (refNumber sample_now) b))
  /\ validateCsrfToken sample_cookies sample_now sample_store = None
  /\ (send_complaint sample_date false sample_cookies b sample_now sample_now sample_now
        SendOk sample_store).1.1
     = Bad [("description", "Deskripsi tidak valid")].
Proof.
  repeat split; vm_compute; reflexivity.
Qed.

(** C10 (as the code does it): in server.js the mail handed to [sendMail]
    interpolates every field of the request body through [`${...}`] alone,
    whatever its type and whether or not it is present: no trimming and no
    tag removal, so a string field appears exactly as received.  The one
    substitution is [gameId || "N/A"]: a falsy [gameId] (absent, empty,
    [null], [0], [false]) is written as ["N/A"].  A mail is only composed
    for a request that passed the limiter, the middleware and the checks. *)
Theorem srv_mail_embeds_raw_fields :
  forall date_value limited ck b t1 t2 t3 out (st st' : gmap string token_data) r m,
  send_complaint date_value limited ck b t1 t2 t3 out st = (r, st', Some m) ->
  limited = false /\ validateCsrfToken ck t1 st = None
  /\ validationErrors_srv date_value t2 b = []
  /\ m = compose_mail (refNumber t3)
          (js_to_string (username b)) (js_to_string (email b))
          (js_to_string (phoneNumber b)) (js_to_string (platform b))
          (js_to_string (issueType b))
          (if truthy (gameId b) then js_to_string (gameId b) else "N/A")
          (js_to_string (dateOfIssue b)) (js_to_string (description b))
  /\ (forall s, js_to_string (JStr s) = s)
  /\ (forall s, truthy (JStr s) = true <-> s <> "").
Proof.
  intros dv l ck b t1 t2 t3 out st st' r m H.
  unfold send_complaint in H. destruct l; [discriminate|].
  destruct (validateCsrfToken ck t1 st) eqn:Ev; [discriminate|].
  destruct (validationErrors_srv dv t2 b) eqn:Er; [|discriminate].
  assert (Hs : forall s, truthy (JStr s) = true <-> s <> "").
  { intros s. simpl. rewrite negb_true_iff. apply String.eqb_neq. }
  simpl in H. destruct out; try discriminate; injection H as _ _ <-;
    (split; [done|]; split; [done|]; split; [done|]);
    (split; [|split; [reflexivity|exact Hs]]);
    unfold mail_srv, or_na; by destruct (truthy (gameId b)).
Qed.

(** C10: counterexample.  An empty [gameId] passes the server.js checks and
    is not embedded verbatim: the mail carries ["N/A"] in its place. *)
Lemma srv_mail_empty_gameId_na :
  send_complaint sample_date false sample_cookies (with_gameId (JStr "") sample_body)
    sample_now sample_now sample_now SendOk sample_store
  = (Ok_ref (refNumber sample_now), delete "s1" sample_store,
     Some (compose_mail (refNumber sample_now) "player_01" "player@example.com"
             "+6281234567890" "PENASLOT" "Kerusakan Game" "N/A" "2025-01-01"
             "Game froze during a spin."))
  /\ "N/A" <> "".
Proof. split; [vm_compute; reflexivity|discriminate]. Qed.

(* ------------------------------------------------------------------ *)
(** ** Witnesses: the statements above at concrete requests *)

Lemma csrf_validation_fails_closed_witness :
  status (Forbidden msg_invalid) = 403
  /\ validateCsrfToken sample_cookies (sample_now + 1001) sample_store <> None.
Proof.
  split.
  - apply (proj1 csrf_validation_fails_closed sample_cookies (sample_now + 1001) sample_store).
    vm_compute. reflexivity.
  - apply (proj2 (proj1 (proj2 csrf_validation_fails_closed) _ _ _)).
    right; right. exists "s1", "t1". split; [done|]. split; [done|].
    right. exists {| token := "t1"; expires := sample_now + 1000 |}.
    split; [vm_compute; reflexivity|]. right. simpl. lia.
Defined.

Lemma csrf_token_one_time_witness :
  validateCsrfToken {| c_sessionId := Some "s1"; c_csrfToken := Some "tokA" |} sample_now
    (get_csrf_token (Some "s1") "fresh" "tokA" sample_now (fun _ => sample_now) sample_store).1.1
  = None.
Proof.
  refine (proj1 (csrf_token_one_time sample_date (Some "s1") "fresh" "tokA" sample_now
            (fun _ => sample_now) sample_store _ Ok_token "s1" "tokA" sample_body
            sample_now sample_now sample_now _ _ _ _ _ _)).
  - reflexivity.
  - discriminate.
  - discriminate.
  - intros _. lia.
  - lia.
  - vm_compute. reflexivity.
Defined.

Lemma validation_errors_per_field_witness :
  map fst (validationErrors_000 sample_date sample_now (with_username (JStr "ab") sample_body))
  = ["username"].
Proof.
  apply (proj1 (proj2 validation_errors_per_field) sample_date sample_now _ F_username).
  - vm_compute. reflexivity.
  - intros [] Hne; try (vm_compute; reflexivity). done.
Defined.

Lemma sanitize_idempotent_strips_tags_witness : sanitize (JNum 5) = JNum 5.
Proof.
  apply (proj2 (proj2 (proj2 sanitize_idempotent_strips_tags))). discriminate.
Defined.

Lemma reference_number_on_success_witness :
  exists d, refNumber sample_now = "PENA-" ++ d /\ d = slice_last 8 (number_to_string sample_now)
    /\ String.length d = 8%nat /\ forall_chars is_digit d = true
    /\ decimal_value d = sample_now mod 10 ^ 8.
Proof. apply (proj2 (proj2 reference_number_on_success)). unfold sample_now. lia. Defined.

Lemma csrf_issue_overwrites_and_sweeps_witness :
  (get_csrf_token (Some "s1") "fresh" "tokA" sample_now (fun _ => sample_now) sample_store).1.1
    !! "s1" = Some {| token := "tokA"; expires := sample_now + 30 * 60 * 1000 |}.
Proof.
  refine (proj1 (proj2 (proj2 (proj2 (csrf_issue_overwrites_and_sweeps (Some "s1") "fresh"
            "tokA" sample_now (fun _ => sample_now) sample_store _ Ok_token "s1" "tokA" _ _))))).
  - reflexivity.
  - intros _. lia.
Defined.

Lemma token_store_frame_witness :
  send_complaint sample_date false sample_cookies sample_body (sample_now + 1001)
    sample_now sample_now SendOk sample_store
  = (Forbidden msg_invalid, sample_store, None).
Proof.
  exact (proj1 token_store_frame sample_date false sample_cookies sample_body (sample_now + 1001)
           sample_now sample_now SendOk sample_store (Forbidden msg_invalid)
           ltac:(vm_compute; reflexivity)).
Defined.

Lemma srv_mail_embeds_raw_fields_witness :
  mail_srv (refNumber sample_now) tagged_body
  = compose_mail (refNumber sample_now) "<b>bob</b>" "player@example.com" "+6281234567890"
      "PENASLOT" "Kerusakan Game" "G-1001" "2025-01-01" "  <i>help</i> me  ".
Proof.
  refine (proj1 (proj2 (proj2 (proj2 (srv_mail_embeds_raw_fields sample_date false
            sample_cookies tagged_body sample_now sample_now sample_now SendOk sample_store
            (delete "s1" sample_store) (Ok_ref (refNumber sample_now)) _ _))))).
  vm_compute. reflexivity.
Defined.
(* ------------------------------------------------------------------ *)
(** ** The CORS origin check *)

Lemma split_comma_free (x : string) :
  exists_char (is_char ",") x = false -> split_comma x = [x].
Proof.
  induction x as [|c r IH]; [done|]. cbn [exists_char split_comma]. unfold is_char.
  destruct (Ascii.eqb c ",") eqn:E; [discriminate|]. simpl. intros H. by rewrite (IH H).
Qed.

Lemma split_comma_app (x s : string) :
  exists_char (is_char ",") x = false -> split_comma (x ++ "," ++ s) = x :: split_comma s.
Proof.
  induction x as [|c r IH]; intros H; [reflexivity|].
  cbn [exists_char] in H. unfold is_char in H.
  destruct (Ascii.eqb c ",") eqn:E; [discriminate|]. simpl in H.
  change (String c r ++ "," ++ s) with (String c (r ++ "," ++ s)).
  cbn [split_comma]. rewrite E, (IH H). done.
Qed.

Lemma split_join (l : list string) :
  l <> [] -> Forall (fun x => exists_char (is_char ",") x = false) l ->
  split_comma (join_comma l) = l.
Proof.
  induction l as [|x [|y l] IH]; intros Hne Hf; [done| |].
  - inversion Hf; subst. simpl. by apply split_comma_free.
  - inversion Hf; subst.
    change (join_comma (x :: y :: l)) with (x ++ "," ++ join_comma (y :: l)).
    rewrite split_comma_app by done. f_equal. by apply IH.
Qed.

(** The origin check of server.js: a request without an Origin header, or
    with an empty one, always passes; with [ALLOWED_ORIGINS] unset or empty
    only ["https://laporanpenaslot.info"] passes; with [ALLOWED_ORIGINS] set
    to comma-separated origins that contain no comma themselves, exactly
    those origins pass, compared verbatim (no trimming around the commas). *)
Theorem cors_origin_check :
  (forall env, origin_allowed env None = true /\ origin_allowed env (Some "") = true)
  /\ (forall env o, (env = None \/ env = Some "") ->
        origin_allowed env (Some o) = true <-> o = "" \/ o = "https://laporanpenaslot.info")
  /\ (forall l o, Forall (fun x => exists_char (is_char ",") x = false) l ->
        join_comma l <> "" ->
        origin_allowed (Some (join_comma l)) (Some o) = true <-> o = "" \/ In o l).
Proof.
  split; [|split].
  - intros env. split; reflexivity.
  - intros env o Henv.
    assert (E : allowedOrigins env = ["https://laporanpenaslot.info"])
      by (destruct Henv as [-> | ->]; reflexivity).
    unfold origin_allowed. rewrite E. cbn [existsb].
    rewrite orb_false_r, orb_true_iff, !String.eqb_eq. done.
  - intros l o Hf Hj.
    assert (Hl : l <> []) by (intros ->; done).
    unfold origin_allowed, allowedOrigins.
    apply String.eqb_neq in Hj. rewrite Hj, split_join by done.
    rewrite orb_true_iff, String.eqb_eq, existsb_exists.
    split; intros [H|H]; auto.
    + right. destruct H as [x [Hx Hox]]. apply String.eqb_eq in Hox. by subst.
    + right. exists o. split; [done|]. apply String.eqb_refl.
Qed.

(* ------------------------------------------------------------------ *)
(** ** The token store over a run of requests *)

Lemma get_csrf_token_size c fs ft now clk (st : gmap string token_data) :
  (size (get_csrf_token c fs ft now clk st).1.1 <= S (size st))%nat.
Proof.
  rewrite get_csrf_token_eq. simpl. etrans; [apply map_size_filter|].
  rewrite map_size_insert. destruct (st !! _); simpl; lia.
Qed.

Lemma send_complaint_store dv l ck b t1 t2 t3 out (st : gmap string token_data) :
  (send_complaint dv l ck b t1 t2 t3 out st).1.2 = st
  \/ (send_complaint dv l ck b t1 t2 t3 out st).1.2 = consume ck st.
Proof.
  unfold send_complaint. destruct l; [by left|].
  destruct (validateCsrfToken ck t1 st); [by left|].
  destruct (negb _); [by left|]. destruct out; [right|left ..]; done.
Qed.

Lemma consume_lookup ck (st : gmap string token_data) k d :
  consume ck st !! k = Some d -> st !! k = Some d.
Proof.
  unfold consume. destruct (c_sessionId ck) as [sid|]; [|done].
  destruct (String.eqb sid ""); [done|].
  destruct (decide (k = sid)) as [->|Hne].
  - by rewrite lookup_delete_eq.
  - by rewrite lookup_delete_ne by congruence.
Qed.

Lemma consume_size ck (st : gmap string token_data) : (size (consume ck st) <= size st)%nat.
Proof.
  unfold consume. destruct (c_sessionId ck) as [sid|]; [|done].
  destruct (String.eqb sid ""); [done|].
  rewrite map_size_delete. destruct (st !! sid); simpl; lia.
Qed.

Lemma serve_size dv rq (st : gmap string token_data) :
  (size (serve dv rq st).2 <= (if is_issue rq then S (size st) else size st))%nat.
Proof.
  destruct rq as [c fs ft now clk|l ck b t1 t2 t3 out]; unfold serve; cbn [is_issue].
  - pose proof (get_csrf_token_size c fs ft now clk st) as H.
    destruct (get_csrf_token c fs ft now clk st) as [[g ?] ?]. exact H.
  - pose proof (send_complaint_store dv l ck b t1 t2 t3 out st) as E.
    destruct (send_complaint dv l ck b t1 t2 t3 out st) as [[r st'] m].
    simpl in E |- *. destruct E as [->| ->]; [lia|apply consume_size].
Qed.

(** Each [GET /get-csrf-token] adds at most one record to [tokenStore] and
    no [POST /send-complaint] adds any: after any run of requests the store
    holds at most its initial number of records plus the number of token
    requests in the run. *)
Theorem token_store_growth :
  forall date_value rqs (st : gmap string token_data),
  (size (run date_value rqs st) <= size st + List.length (List.filter is_issue rqs))%nat.
Proof.
  intros dv rqs. induction rqs as [|rq rqs IH]; intros st; simpl; [lia|].
  specialize (IH (serve dv rq st).2). pose proof (serve_size dv rq st).
  destruct (is_issue rq); simpl; lia.
Qed.

Lemma serve_lookup dv rq (st : gmap string token_data) k d :
  (serve dv rq st).2 !! k = Some d ->
  st !! k = Some d
  \/ exists c fs now clk, rq = GetToken c fs (token d) now clk /\ expires d = now + 30 * 60 * 1000.
Proof.
  destruct rq as [c fs ft now clk|l ck b t1 t2 t3 out]; unfold serve.
  - rewrite get_csrf_token_eq. simpl. intros Hk.
    apply map_lookup_filter_Some_1_1 in Hk.
    destruct (decide (k = (if cookie_truthy c then default "" c else fs))) as [->|Hne].
    + rewrite lookup_insert_eq in Hk. injection Hk as <-.
      right. exists c, fs, now, clk. done.
    + rewrite lookup_insert_ne in Hk by congruence. by left.
  - pose proof (send_complaint_store dv l ck b t1 t2 t3 out st) as E.
    destruct (send_complaint dv l ck b t1 t2 t3 out st) as [[r st'] m].
    simpl in E |- *. intros Hk. left.
    destruct E as [<-| ->]; [done|by apply consume_lookup in Hk].
Qed.

(** No record is ever forged by a submission: every record in the store
    after a run was already in the initial store, or was put there by a
    token request of the run, carrying that request's token and an expiry
    30 minutes after its clock reading. *)
Theorem store_records_origin :
  forall date_value rqs (st : gmap string token_data) k d,
  run date_value rqs st !! k = Some d ->
  st !! k = Some d
  \/ exists c fs now clk, In (GetToken c fs (token d) now clk) rqs
                          /\ expires d = now + 30 * 60 * 1000.
Proof.
  intros dv rqs. induction rqs as [|rq rqs IH]; intros st k d Hk; simpl in Hk; [by left|].
  destruct (IH _ k d Hk) as [H|(c & fs & now & clk & Hin & He)].
  - destruct (serve_lookup dv rq st k d H) as [H'|(c & fs & now & clk & -> & He)]; [by left|].
    right. exists c, fs, now, clk. split; [by left|done].
  - right. exists c, fs, now, clk. split; [by right|done].
Qed.

(* ------------------------------------------------------------------ *)
(** ** CSRF validation over time and across sessions *)

Lemma validate_same_record ck now (st st' : gmap string token_data) :
  (forall sid, c_sessionId ck = Some sid -> st !! sid = st' !! sid) ->
  validateCsrfToken ck now st = validateCsrfToken ck now st'.
Proof.
  intros H. unfold validateCsrfToken.
  destruct (c_sessionId ck) as [sid|] eqn:Es, (c_csrfToken ck); try done.
  by rewrite (H sid eq_refl).
Qed.

(** The middleware reads only the record of the request's own session:
    any change to the records of other sessions leaves its verdict, and its
    reply, unchanged. *)
Theorem csrf_validation_reads_own_record :
  forall ck now (st st' : gmap string token_data),
  (forall sid, c_sessionId ck = Some sid -> st !! sid = st' !! sid) ->
  validateCsrfToken ck now st = validateCsrfToken ck now st'.
Proof. intros ck now st st'. apply validate_same_record. Qed.

(** A rejection by the middleware stands at every later time: with the
    store unchanged, the same cookies get the same 403 reply at any later
    clock reading. *)
Theorem csrf_rejection_persists :
  forall ck (st : gmap string token_data) now now' r,
  now <= now' ->
  validateCsrfToken ck now st = Some r -> validateCsrfToken ck now' st = Some r.
Proof.
  intros ck st now now' r Hle. unfold validateCsrfToken.
  destruct (c_sessionId ck) as [sid|], (c_csrfToken ck) as [tok|]; try done.
  destruct (String.eqb sid "" || String.eqb tok ""); [done|].
  destruct (st !! sid) as [d|]; [|done].
  destruct (String.eqb (token d) tok); simpl; [|done].
  destruct (expires d <? now) eqn:E; [|done].
  apply Z.ltb_lt in E. replace (expires d <? now') with true; [done|].
  symmetry. apply Z.ltb_lt. lia.
Qed.

(** Asking for a token again with the same session cookie invalidates the
    previous token of that session: the old [csrfToken] cookie is rejected
    at any time, as long as the new random token differs from it. *)
Theorem reissue_invalidates_previous_token :
  forall sid old fresh_sid fresh_tok now (clk : string -> Z) (st : gmap string token_data) t,
  sid <> "" -> old <> "" -> old <> fresh_tok ->
  validateCsrfToken {| c_sessionId := Some sid; c_csrfToken := Some old |} t
    (get_csrf_token (Some sid) fresh_sid fresh_tok now clk st).1.1
  = Some (Forbidden msg_invalid).
Proof.
  intros sid old fs ft now clk st t Hsid Hold Hne.
  rewrite get_csrf_token_eq. cbn [fst].
  assert (Hc : cookie_truthy (Some sid) = true)
    by (simpl; apply String.eqb_neq in Hsid; by rewrite Hsid).
  rewrite Hc. cbn [default].
  unfold validateCsrfToken. cbn [c_sessionId c_csrfToken].
  apply String.eqb_neq in Hsid as E1. apply String.eqb_neq in Hold as E2.
  rewrite E1, E2. cbn [orb].
  destruct (filter _ _ !! sid) as [d|] eqn:Ed; [|done].
  apply map_lookup_filter_Some_1_1 in Ed. rewrite lookup_insert_eq in Ed.
  injection Ed as <-. simpl.
  assert (E3 : String.eqb ft old = false) by (apply String.eqb_neq; congruence).
  by rewrite E3.
Qed.

(** Issuing a token for one session leaves the middleware's verdict on
    every other session unchanged, provided that session's record was not
    yet expired when the sweep visited it. *)
Theorem issuance_preserves_other_sessions :
  forall ck_sid fresh_sid fresh_tok now (clk : string -> Z) (st : gmap string token_data) ck t sid,
  c_sessionId ck = Some sid ->
  sid <> (if cookie_truthy ck_sid then default "" ck_sid else fresh_sid) ->
  (forall d, st !! sid = Some d -> clk sid <= expires d) ->
  validateCsrfToken ck t (get_csrf_token ck_sid fresh_sid fresh_tok now clk st).1.1
  = validateCsrfToken ck t st.
Proof.
  intros c fs ft now clk st ck t sid Hs Hne Hexp.
  apply validate_same_record. intros sid' Hs'. rewrite Hs in Hs'. injection Hs' as <-.
  rewrite get_csrf_token_eq. cbn [fst].
  destruct (st !! sid) as [d|] eqn:Ed.
  - apply map_lookup_filter_Some_2.
    + rewrite lookup_insert_ne by congruence. exact Ed.
    + simpl. specialize (Hexp d eq_refl). lia.
  - destruct (filter _ _ !! sid) as [d|] eqn:Ef; [|done].
    apply map_lookup_filter_Some_1_1 in Ef.
    rewrite lookup_insert_ne in Ef by congruence. congruence.
Qed.

(* ------------------------------------------------------------------ *)
(** ** Failures and the mail *)

(** A submission answered with 400 (field checks) or 500 (mail relay or
    exception) leaves the store unchanged and the session's token valid at
    the same clock reading: the client can correct and resubmit with the
    same cookies. *)
Theorem failed_submission_keeps_token :
  forall date_value limited ck b t1 t2 t3 out (st st' : gmap string token_data) r m,
  send_complaint date_value limited ck b t1 t2 t3 out st = (r, st', m) ->
  status r = 400 \/ status r = 500 ->
  st' = st /\ validateCsrfToken ck t1 st' = None.
Proof.
  intros dv l ck b t1 t2 t3 out st st' r m. unfold send_complaint.
  destruct l; [intros [= <- <- <-]; simpl; lia|].
  destruct (validateCsrfToken ck t1 st) as [r0|] eqn:Ev.
  - intros [= <- <- <-]. apply validate_reject_403 in Ev as [Hs _]. lia.
  - destruct (negb _); [intros [= <- <- <-]; done|].
    destruct out; intros [= <- <- <-]; simpl; [lia|done|done].
Qed.

(** Nothing is handed to the mail relay unless every check passed: in
    part_000 a mail is built only for a submission without validation
    errors, and in server.js only for a request that the rate limiter and
    the CSRF middleware let through and that has no validation errors; the
    mail is then the handler's template for the reference number of that
    request. *)
Theorem mail_only_after_all_checks :
  (forall date_value today now out b r m,
     send_complaint_000 date_value today now out b = (r, Some m) ->
     validationErrors_000 date_value today b = [] /\ m = mail_000 (refNumber now) b
     /\ out <> SendThrows)
  /\ (forall date_value limited ck b t1 t2 t3 out (st st' : gmap string token_data) r m,
        send_complaint date_value limited ck b t1 t2 t3 out st = (r, st', Some m) ->
        limited = false /\ validateCsrfToken ck t1 st = None
        /\ validationErrors_srv date_value t2 b = [] /\ m = mail_srv (refNumber t3) b
        /\ out <> SendThrows).
Proof.
  split.
  - intros dv today now out b r m. unfold send_complaint_000.
    destruct (validationErrors_000 dv today b) as [|e es]; [|done].
    simpl. destruct out; intros [= _ <-]; done.
  - intros dv l ck b t1 t2 t3 out st st' r m. unfold send_complaint.
    destruct l; [done|].
    destruct (validateCsrfToken ck t1 st); [done|].
    destruct (validationErrors_srv dv t2 b) as [|e es]; [|done].
    simpl. destruct out; intros [= _ _ <-]; done.
Qed.
(* ------------------------------------------------------------------ *)
(** ** The two handlers' field checks compared *)

Lemma field_key_inj (f f' : field) : field_key f = field_key f' -> f = f'.
Proof. destruct f, f'; first [reflexivity | discriminate]. Qed.

Lemma key_in_srv dv t b f :
  In (field_key f) (map fst (validationErrors_srv dv t b))
  <-> In f order_srv /\ valid_srv dv t f (get_field f b) = false.
Proof.
  rewrite keys_srv, in_map_iff. split.
  - intros [f' [Hk Hin]]. apply field_key_inj in Hk as ->.
    apply filter_In in Hin as [H1 H2]. split; [done|]. by destruct (valid_srv _ _ _ _).
  - intros [H1 H2]. exists f. split; [done|]. apply filter_In. by rewrite H2.
Qed.

Lemma key_in_000 dv t b f :
  In (field_key f) (map fst (validationErrors_000 dv t b))
  <-> valid_000 dv t f (get_field f b) = false.
Proof.
  rewrite keys_000, in_map_iff. split.
  - intros [f' [Hk Hin]]. apply field_key_inj in Hk as ->.
    apply filter_In in Hin as [_ H2]. by destruct (valid_000 _ _ _ _).
  - intros H. exists f. split; [done|]. apply filter_In. rewrite H. split; [apply in_order_000|done].
Qed.

(** server.js has no type check on [username], [description] and
    [issueType]: a truthy value that is not a string (a JSON number or
    [true]) has no [length], so it passes there, while part_000 reports an
    error for it. *)
Theorem srv_accepts_truthy_nonstrings :
  forall date_value t b,
  (truthy (username b) = true -> js_length (username b) = None ->
     ~ In "username" (map fst (validationErrors_srv date_value t b))
     /\ In "username" (map fst (validationErrors_000 date_value t b)))
  /\ (truthy (description b) = true -> js_length (description b) = None ->
     ~ In "description" (map fst (validationErrors_srv date_value t b))
     /\ In "description" (map fst (validationErrors_000 date_value t b)))
  /\ (truthy (issueType b) = true -> js_length (issueType b) = None ->
     ~ In "issueType" (map fst (validationErrors_srv date_value t b))
     /\ In "issueType" (map fst (validationErrors_000 date_value t b))).
Proof.
  intros dv t b.
  split; [|split]; intros Ht Hl;
    [pose proof (key_in_srv dv t b F_username) as Hs; pose proof (key_in_000 dv t b F_username) as H0
    |pose proof (key_in_srv dv t b F_description) as Hs; pose proof (key_in_000 dv t b F_description) as H0
    |pose proof (key_in_srv dv t b F_issueType) as Hs; pose proof (key_in_000 dv t b F_issueType) as H0];
    cbn [field_key get_field valid_srv valid_000] in Hs, H0; rewrite Hs, H0;
    unfold length_lt, length_gt; rewrite ?Hl, ?Ht; cbn;
    (split; [intros [_ ?]; discriminate|]);
    [destruct (username b)|destruct (description b)|destruct (issueType b)];
    try reflexivity; discriminate.
Qed.

(** server.js never rejects a date that does not parse: for a truthy
    [dateOfIssue] whose [new Date(...)] is an Invalid Date, the comparison
    with [new Date()] is false and no error is reported, while part_000
    reports one. *)
Theorem srv_accepts_unparseable_date :
  forall date_value t b,
  truthy (dateOfIssue b) = true -> date_value (dateOfIssue b) = None ->
  ~ In "dateOfIssue" (map fst (validationErrors_srv date_value t b))
  /\ In "dateOfIssue" (map fst (validationErrors_000 date_value t b)).
Proof.
  intros dv t b Ht Hd.
  pose proof (key_in_srv dv t b F_dateOfIssue) as Hs.
  pose proof (key_in_000 dv t b F_dateOfIssue) as H0.
  cbn [field_key get_field valid_srv valid_000] in Hs, H0. rewrite Hs, H0.
  unfold v_dateOfIssue. rewrite Ht, Hd. cbn. split; [intros [_ ?]; discriminate|done].
Qed.

Lemma dec_digits_length_le (f : nat) (n : Z) (k : nat) :
  0 <= n < 10 ^ Z.of_nat k -> (1 <= k)%nat ->
  (List.length (dec_digits f n []) <= k)%nat.
Proof.
  revert n k. induction f as [|f IH]; intros n k Hn Hk; simpl; [lia|].
  destruct (n <? 10) eqn:E; [simpl; lia|].
  apply Z.ltb_ge in E. rewrite dec_digits_app, length_app. simpl.
  destruct k as [|[|k]]; [lia| |].
  - simpl in Hn. lia.
  - assert (Hq : 0 <= n / 10 < 10 ^ Z.of_nat (S k)).
    { rewrite (Nat2Z.inj_succ (S k)), Z.pow_succ_r in Hn by lia.
      split; [apply Z.div_pos; lia|]. apply Z.div_lt_upper_bound; lia. }
    specialize (IH (n / 10) (S k) Hq ltac:(lia)). lia.
Qed.

Lemma is_digit_not_plus (c : ascii) : is_digit c = true -> Ascii.eqb c "+" = false.
Proof.
  intros H. destruct (Ascii.eqb c "+") eqn:E; [|done].
  apply ascii_eqb_spec in E. subst c. discriminate.
Qed.

(** Both servers check [phoneNumber] with [/^\+?[0-9]{10,15}$/], but
    server.js tests [String(phoneNumber)] without a type check: a JSON
    number of 10 to 15 digits passes there, while part_000 rejects any
    non-string. *)
Theorem srv_accepts_numeric_phone :
  forall date_value t b n,
  phoneNumber b = JNum n -> 10 ^ 9 <= n < 10 ^ 15 ->
  ~ In "phoneNumber" (map fst (validationErrors_srv date_value t b))
  /\ In "phoneNumber" (map fst (validationErrors_000 date_value t b)).
Proof.
  intros dv t b n Hp Hn.
  pose proof (key_in_srv dv t b F_phoneNumber) as Hs.
  pose proof (key_in_000 dv t b F_phoneNumber) as H0.
  cbn [field_key get_field valid_srv valid_000] in Hs, H0. rewrite Hs, H0, Hp.
  split; [|reflexivity].
  intros [_ Hv]. revert Hv.
  assert (Ht : truthy (JNum n) = true)
    by (simpl; replace (Z.eqb n 0) with false by (symmetry; apply Z.eqb_neq; lia); done).
  rewrite Ht. cbn [negb orb js_to_string].
  unfold number_to_string. replace (n <? 0) with false by (symmetry; apply Z.ltb_ge; lia).
  unfold nat_to_string.
  destruct (dec_digits_spec 21 n ltac:(simpl; lia)) as (Hf & _ & Hlo).
  specialize (Hlo 9%nat ltac:(simpl; lia)).
  pose proof (dec_digits_length_le 21 n 15 ltac:(simpl; lia) ltac:(lia)) as Hhi.
  destruct (string_of_digits_value (dec_digits 21 n []) 0 Hf) as [_ Hd].
  destruct (dec_digits 21 n []) as [|d ds] eqn:E; [simpl in Hlo; lia|].
  pose proof (length_string_of_digits ds) as Hlen.
  cbn [string_of_digits] in Hd |- *. cbn [phone_re].
  cbn [forall_chars] in Hd. apply andb_prop in Hd as [Hd1 _].
  rewrite (is_digit_not_plus _ Hd1).
  unfold digits_10_15. cbn [String.length]. rewrite Hlen.
  assert (Hd' : forall_chars is_digit (String (digit_char d) (string_of_digits ds)) = true)
    by (cbn [forall_chars]; rewrite Hd1; apply (string_of_digits_value ds 0);
        by inversion Hf).
  rewrite Hd'. cbn [List.length] in Hlo, Hhi.
  replace (10 <=? S (List.length ds))%nat with true by (symmetry; apply Nat.leb_le; lia).
  replace (S (List.length ds) <=? 15)%nat with true by (symmetry; apply Nat.leb_le; lia).
  discriminate.
Qed.

Lemma split_first_spec (c : ascii) (s a d : string) :
  split_first c s = Some (a, d) -> s = a ++ String c d /\ exists_char (is_char c) a = false.
Proof.
  revert a d. induction s as [|x r IH]; intros a d; simpl; [discriminate|].
  destruct (Ascii.eqb x c) eqn:E.
  - intros [= <- <-]. apply ascii_eqb_spec in E. subst. done.
  - destruct (split_first c r) as [[a' d']|] eqn:Er; [|discriminate].
    intros [= <- <-]. destruct (IH a' d' eq_refl) as [-> H].
    split; [reflexivity|]. cbn [exists_char]. rewrite H, orb_false_r. exact E.
Qed.

Lemma split_first_app (c : ascii) (a d : string) :
  exists_char (is_char c) a = false -> split_first c (a ++ String c d) = Some (a, d).
Proof.
  induction a as [|x r IH]; intros H; simpl.
  - by rewrite Ascii.eqb_refl.
  - cbn [exists_char] in H. unfold is_char in H. apply orb_false_iff in H as [H1 H2].
    rewrite H1, (IH H2). done.
Qed.

Lemma forall_chars_app (p : ascii -> bool) (s1 s2 : string) :
  forall_chars p (s1 ++ s2) = forall_chars p s1 && forall_chars p s2.
Proof. induction s1 as [|c r IH]; simpl; [done|]. rewrite IH. apply andb_assoc. Qed.

Lemma forall_chars_impl (p q : ascii -> bool) (s : string) :
  (forall c, p c = true -> q c = true) -> forall_chars p s = true -> forall_chars q s = true.
Proof.
  intros Hpq. induction s as [|c r IH]; simpl; [done|].
  intros [H1 H2]%andb_prop. rewrite (Hpq c H1), (IH H2). done.
Qed.

Lemma email_re_000_srv (s : string) : email_re_000 s = true -> email_re_srv s = true.
Proof.
  unfold email_re_000.
  destruct (split_first "@" s) as [[a d]|] eqn:Es; [|discriminate].
  apply split_first_spec in Es as [-> Ha].
  intros [[Hcp Hdd]%andb_prop Hdot]%andb_prop.
  unfold class_plus in Hcp. apply andb_prop in Hcp as [Hne Ha'].
  destruct a as [|c a']; [discriminate|].
  unfold email_re_srv. apply andb_true_intro. split.
  - rewrite forall_chars_app. apply andb_true_intro. split.
    + apply (forall_chars_impl not_ws_at); [|exact Ha'].
      intros x Hx. unfold not_ws_at in Hx. by apply andb_prop in Hx as [-> _].
    + cbn [forall_chars]. apply andb_true_intro. split; [reflexivity|].
      apply (forall_chars_impl not_ws_at); [|exact Hdd].
      intros x Hx. unfold not_ws_at in Hx. by apply andb_prop in Hx as [-> _].
  - change (String c a' ++ String "@" d) with (String c (a' ++ String "@" d)).
    cbn [exists_char] in Ha. apply orb_false_iff in Ha as [_ Ha].
    rewrite split_first_app by exact Ha. exact Hdot.
Qed.

(** The server.js email pattern [/^\S+@\S+\.\S+$/] is weaker than the
    part_000 one [/^[^\s@]+@[^\s@]+\.[^\s@]+$/]: every string part_000
    accepts is accepted by server.js, and a second ['@'] is accepted by
    server.js only. *)
Theorem email_000_implies_srv :
  (forall s, email_re_000 s = true -> email_re_srv s = true)
  /\ email_re_srv "a@b@c.d" = true /\ email_re_000 "a@b@c.d" = false.
Proof.
  split; [apply email_re_000_srv|split; reflexivity].
Qed.

Lemma check_nil (ok : bool) (k m : string) : check ok k m = [] -> ok = true.
Proof. by destruct ok. Qed.

Lemma errors_000_nil dv today b :
  validationErrors_000 dv today b = [] ->
  v_username (username b) = true /\ v_email (email b) = true
  /\ v_platform (platform b) = true /\ v_issueType (issueType b) = true
  /\ v_description (description b) = true /\ v_dateOfIssue dv today (dateOfIssue b) = true
  /\ v_phoneNumber (phoneNumber b) = true /\ v_gameId (gameId b) = true.
Proof.
  unfold validationErrors_000. intros H.
  repeat match goal with H : (_ ++ _)%list = [] |- _ => apply app_eq_nil in H as [? ?] end.
  repeat match goal with H : check _ _ _ = [] |- _ => apply check_nil in H end.
  repeat split; assumption.
Qed.

Lemma ltrim_plain (s : string) : forall_chars (fun c => negb (is_ws c)) s = true -> ltrim s = s.
Proof.
  destruct s as [|c r]; [done|]. cbn [forall_chars ltrim].
  intros [H _]%andb_prop. apply negb_true_iff in H. by rewrite H.
Qed.

Lemma rtrim_plain (s : string) : forall_chars (fun c => negb (is_ws c)) s = true -> rtrim s = s.
Proof.
  induction s as [|c r IH]; [done|]. cbn [forall_chars rtrim].
  intros [H1 H2]%andb_prop. apply negb_true_iff in H1. rewrite (IH H2), H1, andb_false_r. done.
Qed.

Lemma trim_plain (s : string) : forall_chars (fun c => negb (is_ws c)) s = true -> trim s = s.
Proof. intros H. unfold trim. rewrite ltrim_plain by done. by apply rtrim_plain. Qed.

Lemma no_lt_tag_free (s : string) :
  forall_chars (fun c => negb (Ascii.eqb c "<")) s = true -> tag_free s = true.
Proof.
  induction s as [|c r IH]; [done|]. cbn [forall_chars tag_free].
  intros [H1 H2]%andb_prop. apply negb_true_iff in H1. rewrite H1, (IH H2). done.
Qed.


Lemma plain_sanitize (s : string) : forall_chars plain_char s = true -> sanitize (JStr s) = JStr s.
Proof.
  intros H. simpl. rewrite strip_tags_id.
  - rewrite trim_plain; [done|]. apply (forall_chars_impl plain_char); [|done].
    intros c Hc. unfold plain_char in Hc. by apply andb_prop in Hc as [-> _].
  - apply no_lt_tag_free. apply (forall_chars_impl plain_char); [|done].
    intros c Hc. unfold plain_char in Hc. by apply andb_prop in Hc as [_ ->].
Qed.

Lemma word_dash_plain (c : ascii) : is_word_dash c = true -> plain_char c = true.
Proof.
  intros H. destruct c as [[] [] [] [] [] [] [] []]; vm_compute in H |- *; congruence.
Qed.

Lemma word_plain (c : ascii) : is_word c = true -> plain_char c = true.
Proof. intros H. apply word_dash_plain. unfold is_word_dash. by rewrite H. Qed.

Lemma digit_plain (c : ascii) : is_digit c = true -> plain_char c = true.
Proof. intros H. apply word_plain. unfold is_word. by rewrite H, orb_true_r. Qed.

Lemma phone_plain (s : string) : phone_re s = true -> forall_chars plain_char s = true.
Proof.
  destruct s as [|c r]; [discriminate|]. cbn [phone_re]. unfold digits_10_15.
  destruct (Ascii.eqb c "+") eqn:E.
  - apply ascii_eqb_spec in E as ->. intros [[H _]%andb_prop _]%andb_prop.
    cbn [forall_chars]. rewrite (forall_chars_impl is_digit plain_char r digit_plain H). done.
  - intros [[H _]%andb_prop _]%andb_prop. exact (forall_chars_impl _ _ _ digit_plain H).
Qed.

Lemma falsy_sanitize (v : jsval) : truthy v = false -> sanitize v = v.
Proof.
  destruct v as [| | |z|s]; try done. simpl. intros H.
  apply negb_false_iff, String.eqb_eq in H as ->. reflexivity.
Qed.

Lemma class_plus_plain (p : ascii -> bool) (s : string) :
  (forall c, p c = true -> plain_char c = true) -> class_plus p s = true ->
  forall_chars plain_char s = true.
Proof.
  intros Hp H. unfold class_plus in H. apply andb_prop in H as [_ H].
  exact (forall_chars_impl p plain_char s Hp H).
Qed.

(** The part_000 validators only let through values that [sanitize]
    leaves as they are for [username], [platform], [issueType], [gameId]
    and [phoneNumber]: for a submission without validation errors these
    five reach the mail exactly as submitted (only [email], [description]
    and [dateOfIssue] can be changed by [sanitize]). *)
Theorem valid_000_fields_survive_sanitize :
  forall date_value today b,
  validationErrors_000 date_value today b = [] ->
  sanitize (username b) = username b /\ sanitize (platform b) = platform b
  /\ sanitize (issueType b) = issueType b /\ sanitize (gameId b) = gameId b
  /\ sanitize (phoneNumber b) = phoneNumber b.
Proof.
  intros dv today b H.
  apply errors_000_nil in H as (Hu & _ & Hp & Hi & _ & _ & Hph & Hg).
  split; [|split; [|split; [|split]]].
  - destruct (username b) as [| | | |s]; try discriminate.
    apply plain_sanitize. unfold v_username in Hu.
    apply andb_prop in Hu as [_ Hu]. exact (class_plus_plain _ _ word_plain Hu).
  - destruct (platform b) as [| | | |s]; try discriminate.
    unfold v_platform in Hp. apply String.eqb_eq in Hp as ->. reflexivity.
  - destruct (issueType b) as [| | | |s]; try discriminate.
    unfold v_issueType in Hi. apply existsb_exists in Hi as [x [Hx Hsx]]. apply String.eqb_eq in Hsx as ->.
    assert (HF : Forall (fun y => sanitize (JStr y) = JStr y) validIssueTypes)
      by (repeat constructor).
    rewrite List.Forall_forall in HF. apply HF. exact Hx.
  - unfold v_gameId in Hg. destruct (truthy (gameId b)) eqn:Ht.
    + destruct (gameId b) as [| | | |s]; try discriminate.
      apply plain_sanitize. apply andb_prop in Hg as [_ Hg].
      exact (class_plus_plain _ _ word_dash_plain Hg).
    + by apply falsy_sanitize.
  - destruct (phoneNumber b) as [| | | |s]; try discriminate.
    apply plain_sanitize, phone_plain. exact Hph.
Qed.






Lemma falsy_fails_000 (v : jsval) :
  truthy v = false ->
  v_username v = false /\ v_email v = false /\ v_platform v = false
  /\ v_issueType v = false /\ v_description v = false /\ v_phoneNumber v = false
  /\ v_gameId v = true.
Proof.
  intros H. assert (Hg : v_gameId v = true) by (unfold v_gameId; by rewrite H).
  destruct v as [| | |z|s]; try (repeat split; done).
  simpl in H. apply negb_false_iff, String.eqb_eq in H as ->. repeat split; reflexivity.
Qed.

(** A submission whose fields are all falsy (absent, [null], [false], [0]
    or [""]) is answered with one error per checked field, in source order:
    six in server.js; in part_000 seven, all but the optional [gameId],
    when the date does not parse. *)
Theorem falsy_submission_errors :
  forall date_value today b,
  (forall f, truthy (get_field f b) = false) ->
  map fst (validationErrors_srv date_value today b)
    = ["username"; "email"; "issueType"; "description"; "dateOfIssue"; "phoneNumber"]
  /\ (date_value (dateOfIssue b) = None ->
      map fst (validationErrors_000 date_value today b)
      = ["username"; "email"; "platform"; "issueType"; "description"; "dateOfIssue";
         "phoneNumber"]).
Proof.
  intros dv today b Hf. split.
  - unfold validationErrors_srv.
    pose proof (Hf F_username) as H1. pose proof (Hf F_email) as H2.
    pose proof (Hf F_issueType) as H3. pose proof (Hf F_description) as H4.
    pose proof (Hf F_dateOfIssue) as H5. pose proof (Hf F_phoneNumber) as H6.
    cbn [get_field] in *. rewrite H1, H2, H3, H4, H5, H6. reflexivity.
  - intros Hd. unfold validationErrors_000.
    destruct (falsy_fails_000 (username b) (Hf F_username)) as (-> & _).
    destruct (falsy_fails_000 (email b) (Hf F_email)) as (_ & -> & _).
    destruct (falsy_fails_000 (platform b) (Hf F_platform)) as (_ & _ & -> & _).
    destruct (falsy_fails_000 (issueType b) (Hf F_issueType)) as (_ & _ & _ & -> & _).
    destruct (falsy_fails_000 (description b) (Hf F_description)) as (_ & _ & _ & _ & -> & _).
    destruct (falsy_fails_000 (phoneNumber b) (Hf F_phoneNumber)) as (_ & _ & _ & _ & _ & -> & _).
    destruct (falsy_fails_000 (gameId b) (Hf F_gameId)) as (_ & _ & _ & _ & _ & _ & ->).
    unfold v_dateOfIssue. rewrite Hd. reflexivity.
Qed.

Lemma trim_length_le (s : string) : (String.length (trim s) <= String.length s)%nat.
Proof.
  unfold trim.
  assert (Hl : forall s, (String.length (ltrim s) <= String.length s)%nat).
  { induction s0 as [|c r IH]; simpl; [lia|]. destruct (is_ws c); simpl; lia. }
  assert (Hr : forall s, (String.length (rtrim s) <= String.length s)%nat).
  { induction s0 as [|c r IH]; simpl; [lia|].
    destruct (String.eqb (rtrim r) "" && is_ws c); simpl; lia. }
  etrans; [apply Hr|apply Hl].
Qed.


Ltac nonempty s H :=
  let E := fresh "E" in
  destruct (String.eqb s "") eqn:E;
  [apply String.eqb_eq in E; subst s; vm_compute in H; discriminate H|].

(** A submission part_000 accepts passes the server.js checks of
    [username], [email], [issueType] and [phoneNumber] (at the same clock
    reading); server.js can still report [description] (its 2000 limit
    counts the untrimmed length) and [dateOfIssue] (it rejects a falsy
    value that part_000 parsed as a date), and nothing else. *)
Theorem accepted_000_passes_srv_checks :
  forall date_value today b k,
  validationErrors_000 date_value today b = [] ->
  In k (map fst (validationErrors_srv date_value today b)) ->
  k = "description" \/ k = "dateOfIssue".
Proof.
  intros dv today b k H Hk.
  apply errors_000_nil in H as (Hu & He & _ & Hi & _ & _ & Hph & _).
  rewrite keys_srv, in_map_iff in Hk. destruct Hk as [f [<- Hin]].
  apply filter_In in Hin as [Hin Hv]. apply negb_true_iff in Hv.
  destruct f; cbn [field_key]; try (by left); try (by right); exfalso;
    cbn [valid_srv get_field] in Hv.
  - destruct (username b) as [| | | |s]; try discriminate.
    unfold v_username in Hu. apply andb_prop in Hu as [[H1 H2]%andb_prop H3].
    rewrite trim_plain in H1, H2.
    2, 3: apply (forall_chars_impl plain_char); [intros c Hc; unfold plain_char in Hc;
          by apply andb_prop in Hc as [-> _]|exact (class_plus_plain _ _ word_plain H3)].
    apply Nat.leb_le in H1, H2.
    unfold class_plus in H3. apply andb_prop in H3 as [Hne _].
    apply negb_true_iff in Hne.
    cbn [truthy length_lt length_gt js_length] in Hv. rewrite Hne in Hv.
    replace (Z.of_nat (String.length s) <? 3) with false in Hv by (symmetry; apply Z.ltb_ge; lia).
    replace (50 <? Z.of_nat (String.length s)) with false in Hv by (symmetry; apply Z.ltb_ge; lia).
    discriminate.
  - destruct (email b) as [| | | |s]; try discriminate.
    simpl in He. apply andb_prop in He as [He _].
    nonempty s He. cbn [truthy js_to_string] in Hv. rewrite E in Hv. cbn [negb orb] in Hv.
    rewrite (email_re_000_srv s He) in Hv. discriminate.
  - destruct (issueType b) as [| | | |s]; try discriminate.
    nonempty s Hi. cbn [truthy] in Hv. rewrite E in Hv. discriminate.
  - destruct (phoneNumber b) as [| | | |s]; try discriminate.
    simpl in Hph.
    nonempty s Hph. cbn [truthy js_to_string] in Hv. rewrite E in Hv. cbn [negb orb] in Hv.
    rewrite Hph in Hv. discriminate.
Qed.

(** The [trim()] in [validators.username] and [validators.gameId] has no
    effect: their character classes exclude white space, so a username is
    accepted iff it is a string of 3 to 50 characters from [[a-zA-Z0-9_]],
    and a string gameId iff it is empty or has at most 50 characters from
    [[a-zA-Z0-9-_]]; a name with surrounding spaces is rejected. *)
Theorem username_gameId_trim_redundant :
  forall s,
  v_username (JStr s)
  = (3 <=? String.length s)%nat && (String.length s <=? 50)%nat && class_plus is_word s
  /\ v_gameId (JStr s)
     = String.eqb s "" || (String.length s <=? 50)%nat && class_plus is_word_dash s.
Proof.
  intros s. split.
  - unfold v_username. destruct (class_plus is_word s) eqn:E; [|by rewrite !andb_false_r].
    rewrite trim_plain; [done|].
    apply (forall_chars_impl plain_char); [intros c Hc; unfold plain_char in Hc;
      by apply andb_prop in Hc as [-> _]|exact (class_plus_plain _ _ word_plain E)].
  - unfold v_gameId, truthy. destruct (String.eqb s "") eqn:E0; [done|]. cbn [negb orb].
    destruct (class_plus is_word_dash s) eqn:E; [|by rewrite !andb_false_r].
    rewrite trim_plain; [done|].
    apply (forall_chars_impl plain_char); [intros c Hc; unfold plain_char in Hc;
      by apply andb_prop in Hc as [-> _]|exact (class_plus_plain _ _ word_dash_plain E)].
Qed.

(* ------------------------------------------------------------------ *)
(** ** Witnesses of the properties above *)

Lemma cors_origin_check_witness :
  origin_allowed (Some "https://laporanpenaslot.info,http://localhost:3000")
    (Some "http://localhost:3000") = true.
Proof.
  refine (proj2 (proj2 (proj2 cors_origin_check)
            ["https://laporanpenaslot.info"; "http://localhost:3000"] "http://localhost:3000" _ _)
            _).
  - apply List.Forall_forall. intros x Hx. simpl in Hx.
    destruct Hx as [<-|[<-|[]]]; vm_compute; reflexivity.
  - intros H. vm_compute in H. discriminate H.
  - right. simpl. tauto.
Defined.

Lemma store_records_origin_witness :
  (∅ : gmap string token_data) !! "fresh"
    = Some {| token := "tokA"; expires := sample_now + 30 * 60 * 1000 |}
  \/ exists c fs now clk,
       In (GetToken c fs "tokA" now clk) [GetToken None "fresh" "tokA" sample_now (fun _ => sample_now)]
       /\ sample_now + 30 * 60 * 1000 = now + 30 * 60 * 1000.
Proof.
  apply (store_records_origin sample_date [GetToken None "fresh" "tokA" sample_now (fun _ => sample_now)]
           ∅ "fresh" {| token := "tokA"; expires := sample_now + 30 * 60 * 1000 |}).
  vm_compute. reflexivity.
Defined.

Lemma csrf_validation_reads_own_record_witness :
  validateCsrfToken sample_cookies sample_now sample_store
  = validateCsrfToken sample_cookies sample_now (delete "s0" sample_store).
Proof.
  apply csrf_validation_reads_own_record. intros sid Hs. injection Hs as <-.
  vm_compute. reflexivity.
Defined.

Lemma csrf_rejection_persists_witness :
  validateCsrfToken sample_cookies (sample_now + 5000) sample_store = Some (Forbidden msg_invalid).
Proof.
  apply (csrf_rejection_persists sample_cookies sample_store (sample_now + 1001)).
  - lia.
  - vm_compute. reflexivity.
Defined.

Lemma reissue_invalidates_previous_token_witness :
  validateCsrfToken {| c_sessionId := Some "s1"; c_csrfToken := Some "t1" |} sample_now
    (get_csrf_token (Some "s1") "fresh" "tokB" sample_now (fun _ => sample_now) sample_store).1.1
  = Some (Forbidden msg_invalid).
Proof. apply reissue_invalidates_previous_token; discriminate. Defined.

Lemma issuance_preserves_other_sessions_witness :
  validateCsrfToken sample_cookies sample_now
    (get_csrf_token (Some "s2") "fresh" "tokB" sample_now (fun _ => sample_now) sample_store).1.1
  = validateCsrfToken sample_cookies sample_now sample_store.
Proof.
  apply (issuance_preserves_other_sessions (Some "s2") "fresh" "tokB" sample_now
           (fun _ => sample_now) sample_store sample_cookies sample_now "s1").
  - reflexivity.
  - vm_compute. discriminate.
  - intros d Hd. vm_compute in Hd. injection Hd as <-. simpl. unfold sample_now. lia.
Defined.

Lemma failed_submission_keeps_token_witness :
  sample_store = sample_store /\ validateCsrfToken sample_cookies sample_now sample_store = None.
Proof.
  apply (failed_submission_keeps_token sample_date false sample_cookies
           (with_username (JStr "ab") sample_body) sample_now sample_now sample_now SendOk
           sample_store sample_store (Bad [("username", "Username tidak valid")]) None).
  - vm_compute. reflexivity.
  - left. reflexivity.
Defined.

Lemma mail_only_after_all_checks_witness :
  validationErrors_000 sample_date sample_now sample_body = []
  /\ mail_000 (refNumber sample_now) sample_body = mail_000 (refNumber sample_now) sample_body
  /\ SendOk <> SendThrows.
Proof.
  apply (proj1 mail_only_after_all_checks sample_date sample_now sample_now SendOk sample_body
           (Ok_ref (refNumber sample_now))).
  vm_compute. reflexivity.
Defined.

Lemma srv_accepts_truthy_nonstrings_witness :
  (~ In "username" (map fst (validationErrors_srv sample_date sample_now loose_body))
   /\ In "username" (map fst (validationErrors_000 sample_date sample_now loose_body)))
  /\ (~ In "description" (map fst (validationErrors_srv sample_date sample_now loose_body))
      /\ In "description" (map fst (validationErrors_000 sample_date sample_now loose_body)))
  /\ (~ In "issueType" (map fst (validationErrors_srv sample_date sample_now loose_body))
      /\ In "issueType" (map fst (validationErrors_000 sample_date sample_now loose_body))).
Proof.
  destruct (srv_accepts_truthy_nonstrings sample_date sample_now loose_body) as (A & B & C).
  split; [apply A|split; [apply B|apply C]]; reflexivity.
Defined.

Lemma srv_accepts_unparseable_date_witness :
  ~ In "dateOfIssue" (map fst (validationErrors_srv sample_date sample_now loose_body))
  /\ In "dateOfIssue" (map fst (validationErrors_000 sample_date sample_now loose_body)).
Proof. apply srv_accepts_unparseable_date; reflexivity. Defined.

Lemma srv_accepts_numeric_phone_witness :
  ~ In "phoneNumber" (map fst (validationErrors_srv sample_date sample_now loose_body))
  /\ In "phoneNumber" (map fst (validationErrors_000 sample_date sample_now loose_body)).
Proof.
  apply (srv_accepts_numeric_phone sample_date sample_now loose_body 6281234567890).
  - reflexivity.
  - simpl. lia.
Defined.

Lemma email_000_implies_srv_witness : email_re_srv "player@example.com" = true.
Proof. apply (proj1 email_000_implies_srv). reflexivity. Defined.

Lemma valid_000_fields_survive_sanitize_witness :
  sanitize (username sample_body) = username sample_body
  /\ sanitize (platform sample_body) = platform sample_body
  /\ sanitize (issueType sample_body) = issueType sample_body
  /\ sanitize (gameId sample_body) = gameId sample_body
  /\ sanitize (phoneNumber sample_body) = phoneNumber sample_body.
Proof.
  apply (valid_000_fields_survive_sanitize sample_date sample_now). vm_compute. reflexivity.
Defined.

Lemma falsy_submission_errors_witness :
  map fst (validationErrors_srv sample_date sample_now empty_body)
    = ["username"; "email"; "issueType"; "description"; "dateOfIssue"; "phoneNumber"]
  /\ map fst (validationErrors_000 sample_date sample_now empty_body)
     = ["username"; "email"; "platform"; "issueType"; "description"; "dateOfIssue";
        "phoneNumber"].
Proof.
  destruct (falsy_submission_errors sample_date sample_now empty_body
              ltac:(intros []; reflexivity)) as [A B].
  split; [exact A|apply B; reflexivity].
Defined.

Lemma accepted_000_passes_srv_checks_witness :
  "dateOfIssue" = "description" \/ "dateOfIssue" = "dateOfIssue".
Proof.
  apply (accepted_000_passes_srv_checks null_date sample_now null_date_body "dateOfIssue").
  - vm_compute. reflexivity.
  - vm_compute. left. reflexivity.
Defined.
